(** * ClickUp MCP server: view and space tools, name resolution

    A shallow embedding of

      - [src/services/clickup/view.ts]  (class [ViewService]),
      - [src/tools/view.ts]             (parent resolution and the view handlers),
      - [src/tools/space.ts]            (the space handlers),

    followed by the properties of name resolution, parent resolution, error
    propagation, remote traffic and request construction.

    Asynchronous functions are written in a state-and-exception monad: the
    state is the remote world together with the log of every call that
    left the process, and a rejected promise is a [Thrown] completion.
    The [logOperation] lines of the service only write to the logger and
    are left out. *)

From Stdlib Require Import String Ascii List ZArith Bool Lia PeanoNat.
Import ListNotations.

Set Implicit Arguments.

Local Open Scope string_scope.
Local Open Scope list_scope.

(** ** JavaScript values *)

Module Js.

Infix "+++" := String.append (right associativity, at level 60).

(** The double quote character used inside the template literals. *)
Definition dq : string := String (ascii_of_nat 34) EmptyString.

(** [if (s)] on an optional string: [undefined] and the empty string are
    falsy, every other string is truthy. *)
Definition truthy (s : option string) : bool :=
  match s with
  | None => false
  | Some EmptyString => false
  | Some (String _ _) => true
  end.

(** [`${s}`] where [s] may be [undefined]. *)
Definition template (s : option string) : string :=
  match s with
  | Some v => v
  | None => "undefined"
  end.

(** The value of a truthy optional string, [None] for a falsy one. *)
Definition as_truthy (s : option string) : option string :=
  match s with
  | Some (String c r) => Some (String c r)
  | _ => None
  end.

(** [a || b] on optional strings. *)
Definition or_else (a : option string) (b : string) : string :=
  match a with
  | Some (String c r) => String c r
  | _ => b
  end.

(** [ErrorCode] of [services/clickup/base.ts]; only the two members that
    the view service names are distinguished. *)
Inductive ErrorCode : Type :=
| UNKNOWN
| INVALID_PARAMETER
| OtherCode (code : string).

(** Thrown values: a plain [Error], or a [ClickUpServiceError] with its
    code and the error it wraps. *)
#[local] Unset Elimination Schemes.
Inductive JsError : Type :=
| Error (message : string)
| ClickUpServiceError (message : string) (code : ErrorCode)
                      (data : option JsError).

#[local] Set Elimination Schemes.

Definition message (e : JsError) : string :=
  match e with
  | Error m => m
  | ClickUpServiceError m _ _ => m
  end.

(** [error instanceof ClickUpServiceError] *)
Definition instanceofClickUpServiceError (e : JsError) : bool :=
  match e with
  | Error _ => false
  | ClickUpServiceError _ _ _ => true
  end.

(** How a call completes: normally, or by throwing. *)
Inductive Completion (A : Type) : Type :=
| Returned (a : A)
| Thrown (e : JsError).
Arguments Returned {A} a.
Arguments Thrown {A} e.

(** A minimal JSON value, for the fields the handlers pass through
    untouched (filter values, column descriptions). *)
#[local] Unset Elimination Schemes.
Inductive Json : Type :=
| JNull
| JBool (b : bool)
| JNum (z : Z)
| JStr (s : string)
| JArr (items : list Json)
| JObj (fields : list (string * Json)).
#[local] Set Elimination Schemes.

End Js.
Import Js.

(** ** Data of [services/clickup/types.ts], as the handlers use it *)

Module Types.

Record ViewParent : Type := mkViewParent {
  parent_id : string;
  parent_type : string
}.

Record Grouping : Type := mkGrouping {
  grouping_field : string;
  grouping_dir : Z
}.

Record FilterCondition : Type := mkFilterCondition {
  cond_field : option string;
  cond_op : option string;
  cond_value : option Json
}.

Record ViewFilters : Type := mkViewFilters {
  filters_op : string;
  filters_filters : list FilterCondition
}.

Record ViewSettings : Type := mkViewSettings {
  show_task_locations : option bool;
  show_subtasks : option Z;
  show_assignees : option bool;
  show_images : option bool;
  me_mode : option bool
}.

Record ClickUpView : Type := mkView {
  view_id : string;
  view_name : string;
  view_type : string;
  view_parent : ViewParent;
  view_grouping : option Grouping;
  view_filters : option ViewFilters;
  view_columns : option (list Json);
  view_settings : option ViewSettings;
  view_creator : option Json;
  view_protected : option bool
}.

Record CreateViewData : Type := mkCreateViewData {
  cv_name : string;
  cv_type : string;
  cv_parent : ViewParent;
  cv_grouping : option Grouping;
  cv_filters : option ViewFilters;
  cv_columns : option (list Json);
  cv_settings : option ViewSettings
}.

Record UpdateViewData : Type := mkUpdateViewData {
  uv_name : option string;
  uv_grouping : option Grouping;
  uv_filters : option ViewFilters;
  uv_columns : option (list Json);
  uv_settings : option ViewSettings
}.

(** Space features in the API format built by [convertFeaturesToAPI]. *)
Record DueDatesAPI : Type := mkDueDatesAPI {
  dd_enabled : option bool;
  dd_start_date : option bool;
  dd_remap_due_dates : option bool;
  dd_remap_closed_due_date : option bool
}.

Record Toggle : Type := mkToggle { enabled : option bool }.

Record ApiFeatures : Type := mkApiFeatures {
  due_dates : option DueDatesAPI;
  time_tracking : option Toggle;
  tags : option Toggle;
  time_estimates : option Toggle;
  checklists : option Toggle;
  custom_fields : option Toggle;
  remap_dependencies : option Toggle;
  dependency_warning : option Toggle;
  portfolios : option Toggle
}.

Record CreateSpaceData : Type := mkCreateSpaceData {
  cs_name : string;
  cs_multiple_assignees : option bool;
  cs_features : option ApiFeatures
}.

Record UpdateSpaceData : Type := mkUpdateSpaceData {
  us_name : option string;
  us_color : option string;
  us_private : option bool;
  us_admin_can_manage : option bool;
  us_multiple_assignees : option bool;
  us_features : option ApiFeatures
}.

(** A space as the remote reports it; the handlers test [!space.name], so
    the name may be missing. *)
Record ClickUpSpace : Type := mkSpace {
  space_id : string;
  space_name : option string;
  space_private : option bool;
  space_features : option ApiFeatures
}.

(** What [findIDByNameInHierarchy] returns; only [id] is read. *)
Record HierarchyInfo : Type := mkHierarchyInfo { info_id : string }.

(** Result of [processColorCommand]; only [background] is read. *)
Record ColorResult : Type := mkColorResult { background : string }.

End Types.
Import Types.

(** ** Calls on the collaborators, as they are logged *)

Inductive Event : Type :=
| HttpGetViews (endpoint : string)
| HttpGetView (endpoint : string)
| HttpPostView (endpoint : string) (body : CreateViewData)
| HttpPutView (endpoint : string) (body : UpdateViewData)
| HttpDelete (endpoint : string)
| RequestNotSent (error : JsError)
| WsFindSpaceIDByName (name : string)
| WsGetWorkspaceHierarchy
| WsFindSpaceByName (name : string)
| WsCreateSpace (data : CreateSpaceData)
| WsUpdateSpace (id : string) (data : UpdateSpaceData)
| WsGetSpace (id : string)
| WsDeleteSpace (id : string).

(** The collaborators that are not part of these three files: the HTTP
    client behind [BaseClickUpService.makeRequest], the workspace service,
    the configuration and the colour processor. [W] is the state of the
    remote world (and of whatever those collaborators keep). *)
Record Backend (W : Type) : Type := mkBackend {
  (** [makeRequest(() => client.get<ViewsResponse>(endpoint))], [.data.views] *)
  get_views : string -> W -> Completion (list ClickUpView) * W;
  (** [makeRequest(() => client.get<ClickUpView>(endpoint))], [.data] *)
  get_view : string -> W -> Completion ClickUpView * W;
  (** [makeRequest(() => client.post<ClickUpView>(endpoint, viewData))] *)
  post_view : string -> CreateViewData -> W -> Completion ClickUpView * W;
  (** [makeRequest(() => client.put<ClickUpView>(endpoint, updateData))] *)
  put_view : string -> UpdateViewData -> W -> Completion ClickUpView * W;
  (** [makeRequest(() => client.delete(endpoint))] *)
  http_delete : string -> W -> Completion unit * W;
  (** [makeRequest] around a callback that throws before sending anything *)
  request_not_sent : JsError -> W -> Completion ClickUpView * W;
  (** [workspaceService], [services/clickup/workspace.ts] *)
  Hierarchy : Type;
  findSpaceIDByName : string -> W -> Completion (option string) * W;
  getWorkspaceHierarchy : W -> Completion Hierarchy * W;
  findIDByNameInHierarchy :
    Hierarchy -> string -> string -> Completion (option HierarchyInfo);
  findSpaceByName : string -> W -> Completion (option ClickUpSpace) * W;
  createSpace : CreateSpaceData -> W -> Completion ClickUpSpace * W;
  updateSpace : string -> UpdateSpaceData -> W -> Completion ClickUpSpace * W;
  getSpace : string -> W -> Completion ClickUpSpace * W;
  deleteSpace : string -> W -> Completion unit * W;
  (** [this.teamId], the team the services were constructed with *)
  teamId : string;
  (** [config.clickupTeamId] *)
  clickupTeamId : string;
  (** [processColorCommand] of [utils/color-processor.ts] *)
  processColorCommand : string -> option ColorResult
}.

(** ** The monad of asynchronous code *)

Module Async.
Section Async.
Context {W : Type}.

Record St : Type := mkSt { world : W; log : list Event }.

Definition M (A : Type) : Type := St -> Completion A * St.

Definition ret {A} (a : A) : M A := fun s => (Returned a, s).

Definition throw {A} (e : JsError) : M A := fun s => (Thrown e, s).

Definition bind {A B} (m : M A) (k : A -> M B) : M B :=
  fun s =>
    match m s with
    | (Returned a, s') => k a s'
    | (Thrown e, s') => (Thrown e, s')
    end.

(** [try { m } catch (error) { h error }] *)
Definition try_catch {A} (m : M A) (h : JsError -> M A) : M A :=
  fun s =>
    match m s with
    | (Returned a, s') => (Returned a, s')
    | (Thrown e, s') => h e s'
    end.

(** A synchronous call that returns or throws on the spot. *)
Definition sync {A} (c : Completion A) : M A := fun s => (c, s).

(** One call on a collaborator: it is logged and it steps the world. *)
Definition call {A} (ev : Event) (op : W -> Completion A * W) : M A :=
  fun s =>
    let (r, w') := op (world s) in
    (r, {| world := w'; log := log s ++ [ev] |}).

End Async.
End Async.
Import Async.

Declare Scope async_scope.
Delimit Scope async_scope with async.
Notation "x <- m ;; k" := (bind m (fun x => k))
  (at level 61, m at next level, right associativity) : async_scope.
Notation "m ;;; k" := (bind m (fun _ => k))
  (at level 61, right associativity) : async_scope.
Local Open Scope async_scope.

(** ** [services/clickup/view.ts]: class [ViewService] *)

Module ViewService.
Section ViewService.
Context {W : Type} (B : Backend W).

(** [handleError(error, message?)] *)
Definition handleError (error : JsError) (msg : option string) : JsError :=
  if instanceofClickUpServiceError error then error
  else ClickUpServiceError
         (or_else msg ("View service error: " +++ message error))
         UNKNOWN (Some error).

(** [createView(viewData)] *)
Definition createView (viewData : CreateViewData) : M (W := W) ClickUpView :=
  try_catch
    (let t := parent_type (cv_parent viewData) in
     let send endpoint :=
       call (HttpPostView endpoint viewData) (post_view B endpoint viewData) in
     if t =? "team" then send ("/team/" +++ teamId B +++ "/view")
     else if t =? "space" then
       send ("/space/" +++ parent_id (cv_parent viewData) +++ "/view")
     else if t =? "folder" then
       send ("/folder/" +++ parent_id (cv_parent viewData) +++ "/view")
     else if t =? "list" then
       send ("/list/" +++ parent_id (cv_parent viewData) +++ "/view")
     else
       let e := ClickUpServiceError ("Invalid parent type: " +++ t)
                                    INVALID_PARAMETER None in
       call (RequestNotSent e) (request_not_sent B e))
    (fun error => throw (handleError error (Some "Failed to create view"))).

(** [getView(viewId)] *)
Definition getView (viewId : string) : M (W := W) ClickUpView :=
  try_catch
    (call (HttpGetView ("/view/" +++ viewId))
          (get_view B ("/view/" +++ viewId)))
    (fun error =>
       throw (handleError error (Some ("Failed to get view " +++ viewId)))).

(** [getWorkspaceViews()] *)
Definition getWorkspaceViews : M (W := W) (list ClickUpView) :=
  try_catch
    (call (HttpGetViews ("/team/" +++ teamId B +++ "/view"))
          (get_views B ("/team/" +++ teamId B +++ "/view")))
    (fun error =>
       throw (handleError error (Some "Failed to get workspace views"))).

(** [getSpaceViews(spaceId)] *)
Definition getSpaceViews (spaceId : string) : M (W := W) (list ClickUpView) :=
  try_catch
    (call (HttpGetViews ("/space/" +++ spaceId +++ "/view"))
          (get_views B ("/space/" +++ spaceId +++ "/view")))
    (fun error =>
       throw (handleError error (Some "Failed to get space views"))).

(** [getFolderViews(folderId)] *)
Definition getFolderViews (folderId : string) : M (W := W) (list ClickUpView) :=
  try_catch
    (call (HttpGetViews ("/folder/" +++ folderId +++ "/view"))
          (get_views B ("/folder/" +++ folderId +++ "/view")))
    (fun error =>
       throw (handleError error (Some "Failed to get folder views"))).

(** [getListViews(listId)] *)
Definition getListViews (listId : string) : M (W := W) (list ClickUpView) :=
  try_catch
    (call (HttpGetViews ("/list/" +++ listId +++ "/view"))
          (get_views B ("/list/" +++ listId +++ "/view")))
    (fun error =>
       throw (handleError error (Some "Failed to get list views"))).

(** [updateView(viewId, updateData)] *)
Definition updateView (viewId : string) (updateData : UpdateViewData)
  : M (W := W) ClickUpView :=
  try_catch
    (call (HttpPutView ("/view/" +++ viewId) updateData)
          (put_view B ("/view/" +++ viewId) updateData))
    (fun error =>
       throw (handleError error (Some ("Failed to update view " +++ viewId)))).

(** [deleteView(viewId)]; the returned [{ success: true }] is [tt]. *)
Definition deleteView (viewId : string) : M (W := W) unit :=
  try_catch
    (call (HttpDelete ("/view/" +++ viewId))
          (http_delete B ("/view/" +++ viewId)))
    (fun error =>
       throw (handleError error (Some ("Failed to delete view " +++ viewId)))).

(** [views.find(view => view.name === viewName) || null] *)
Definition find_by_name (viewName : string) (views : list ClickUpView)
  : option ClickUpView :=
  List.find (fun view => view_name view =? viewName) views.

(** [findViewByName(parentId, parentType, viewName)] *)
Definition findViewByName (parentId parentType viewName : string)
  : M (W := W) (option ClickUpView) :=
  try_catch
    (views <-
       (if parentType =? "team" then getWorkspaceViews
        else if parentType =? "space" then getSpaceViews parentId
        else if parentType =? "folder" then getFolderViews parentId
        else if parentType =? "list" then getListViews parentId
        else throw (ClickUpServiceError
                      ("Invalid parent type: " +++ parentType)
                      INVALID_PARAMETER None)) ;;
     ret (find_by_name viewName views))
    (fun error =>
       throw (handleError error
                (Some ("Failed to find view by name: " +++ viewName)))).

End ViewService.
End ViewService.

(** ** Tool parameters and responses *)

Module Params.

Record ConditionParam : Type := mkConditionParam {
  c_field : option string;
  c_operator : option string;
  c_value : option Json
}.

Record FiltersParam : Type := mkFiltersParam {
  f_operator : option string;
  f_conditions : option (list ConditionParam)
}.

Record SettingsParam : Type := mkSettingsParam {
  showTaskLocations : option bool;
  showSubtasks : option Z;
  showAssignees : option bool;
  showImages : option bool;
  meMode : option bool
}.

(** The parameters the view handlers destructure. *)
Record ViewParams : Type := mkViewParams {
  viewId : option string;
  viewName : option string;
  parentType : option string;
  parentId : option string;
  parentName : option string;
  name : option string;
  type : option string;
  groupBy : option string;
  groupDirection : option Z;
  filters : option FiltersParam;
  columns : option (list Json);
  settings : option SettingsParam
}.

Record DueDatesParam : Type := mkDueDatesParam {
  dueDates_enabled : option bool;
  startDate : option bool;
  remapDueDates : option bool;
  remapClosedDueDate : option bool
}.

Record FeaturesParam : Type := mkFeaturesParam {
  dueDates : option DueDatesParam;
  timeTracking : option Toggle;
  f_tags : option Toggle;
  timeEstimates : option Toggle;
  f_checklists : option Toggle;
  customFields : option Toggle;
  remapDependencies : option Toggle;
  dependencyWarning : option Toggle;
  f_portfolios : option Toggle
}.

(** The parameters the space handlers destructure. *)
Record SpaceParams : Type := mkSpaceParams {
  spaceId : option string;
  spaceName : option string;
  s_name : option string;
  color : option string;
  isPrivate : option bool;
  adminCanManage : option bool;
  multipleAssignees : option bool;
  features : option FeaturesParam
}.

(** [sponsorService.createResponse(data, true)] and
    [sponsorService.createErrorResponse(message)]. *)
Inductive ToolResponse (P : Type) : Type :=
| createResponse (data : P) (includeSponsorMessage : bool)
| createErrorResponse (message : string).
Arguments createResponse {P} data includeSponsorMessage.
Arguments createErrorResponse {P} message.

Record CreateViewResult : Type := mkCreateViewResult {
  cvr_id : string;
  cvr_name : string;
  cvr_type : string;
  cvr_parent : ViewParent;
  cvr_message : string
}.

Record GetViewResult : Type := mkGetViewResult {
  gvr_view : ClickUpView;
  gvr_message : string
}.

Record UpdateViewResult : Type := mkUpdateViewResult {
  uvr_id : string;
  uvr_name : string;
  uvr_type : string;
  uvr_message : string
}.

Record MessageResult : Type := mkMessageResult { mr_message : string }.

Record CreateSpaceResult : Type := mkCreateSpaceResult {
  csr_id : string;
  csr_name : string;
  csr_private : option bool;
  csr_features : option ApiFeatures;
  csr_url : string;
  csr_message : string
}.

Record UpdateSpaceResult : Type := mkUpdateSpaceResult {
  usr_id : string;
  usr_name : option string;
  usr_private : option bool;
  usr_message : string
}.

End Params.
Import Params.

(** ** [tools/view.ts] *)

Module ViewTools.
Section ViewTools.
Context {W : Type} (B : Backend W).

(** [resolveParentId(parentType, parentId?, parentName?)] *)
Definition resolveParentId (parentType : string)
           (parentId parentName : option string) : M (W := W) string :=
  if parentType =? "team" then ret (clickupTeamId B)
  else
    match as_truthy parentId with
    | Some parentId => ret parentId
    | None =>
      match as_truthy parentName with
      | None =>
        throw (Error ("Either parentId or parentName must be provided for "
                        +++ parentType))
      | Some parentName =>
        if parentType =? "space" then
          spaceId <- call (WsFindSpaceIDByName parentName)
                          (findSpaceIDByName B parentName) ;;
          match as_truthy spaceId with
          | None =>
            throw (Error ("Space " +++ dq +++ parentName +++ dq +++ " not found"))
          | Some spaceId => ret spaceId
          end
        else if parentType =? "folder" then
          hierarchy <- call WsGetWorkspaceHierarchy (getWorkspaceHierarchy B) ;;
          folderInfo <-
            sync (findIDByNameInHierarchy B hierarchy parentName "folder") ;;
          match folderInfo with
          | None =>
            throw (Error ("Folder " +++ dq +++ parentName +++ dq +++ " not found"))
          | Some folderInfo => ret (info_id folderInfo)
          end
        else if parentType =? "list" then
          hierarchy <- call WsGetWorkspaceHierarchy (getWorkspaceHierarchy B) ;;
          listInfo <-
            sync (findIDByNameInHierarchy B hierarchy parentName "list") ;;
          match listInfo with
          | None =>
            throw (Error ("List " +++ dq +++ parentName +++ dq +++ " not found"))
          | Some listInfo => ret (info_id listInfo)
          end
        else throw (Error ("Invalid parent type: " +++ parentType))
      end
    end.

(** The helper [findViewByName(parentType, parentId, viewName)]. *)
Definition findViewByName (parentType parentId viewName : string)
  : M (W := W) (option ClickUpView) :=
  ViewService.findViewByName B parentId parentType viewName.

(** [groupDirection || 1] *)
Definition dir_or_1 (groupDirection : option Z) : Z :=
  match groupDirection with
  | Some 0%Z => 1%Z
  | Some d => d
  | None => 1%Z
  end.

(** [{ field: groupBy, dir: groupDirection || 1 }] under [if (groupBy)] *)
Definition grouping_of (groupBy : option string) (groupDirection : option Z)
  : option Grouping :=
  match as_truthy groupBy with
  | Some g => Some {| grouping_field := g;
                      grouping_dir := dir_or_1 groupDirection |}
  | None => None
  end.

(** The [filters] object built under [if (filters)]. *)
Definition filters_of (filters : option FiltersParam) : option ViewFilters :=
  match filters with
  | Some f =>
    Some {| filters_op := or_else (f_operator f) "AND";
            filters_filters :=
              match f_conditions f with
              | Some cs =>
                map (fun c => {| cond_field := c_field c;
                                 cond_op := c_operator c;
                                 cond_value := c_value c |}) cs
              | None => []
              end |}
  | None => None
  end.

(** The [settings] object built under [if (settings)]. *)
Definition settings_of (settings : option SettingsParam) : option ViewSettings :=
  match settings with
  | Some s =>
    Some {| show_task_locations := showTaskLocations s;
            show_subtasks := showSubtasks s;
            show_assignees := showAssignees s;
            show_images := showImages s;
            me_mode := meMode s |}
  | None => None
  end.

(** [handleCreateView(parameters)] *)
Definition handleCreateView (parameters : ViewParams)
  : M (W := W) (ToolResponse CreateViewResult) :=
  match as_truthy (name parameters), as_truthy (type parameters),
        as_truthy (parentType parameters) with
  | Some name, Some type, Some parentType =>
    resolvedParentId <- resolveParentId parentType (parentId parameters)
                                        (parentName parameters) ;;
    let viewData :=
      {| cv_name := name;
         cv_type := type;
         cv_parent := {| parent_id := resolvedParentId;
                         parent_type := parentType |};
         cv_grouping := grouping_of (groupBy parameters)
                                    (groupDirection parameters);
         cv_filters := filters_of (filters parameters);
         cv_columns := columns parameters;
         cv_settings := settings_of (settings parameters) |} in
    try_catch
      (newView <- ViewService.createView B viewData ;;
       ret (createResponse
              {| cvr_id := view_id newView;
                 cvr_name := view_name newView;
                 cvr_type := view_type newView;
                 cvr_parent := view_parent newView;
                 cvr_message := "View " +++ dq +++ name +++ dq
                                  +++ " created successfully" |} true))
      (fun error =>
         ret (createErrorResponse
                ("Failed to create view: " +++ message error)))
  | _, _, _ => throw (Error "name, type, and parentType are required")
  end.

(** The lookup shared by the handlers that accept a view name:
    [resolveParentId], then [findViewByName], then the not-found throw. *)
Definition lookupView (viewName parentType : string)
           (parentId parentName : option string) : M (W := W) ClickUpView :=
  resolvedParentId <- resolveParentId parentType parentId parentName ;;
  foundView <- findViewByName parentType resolvedParentId viewName ;;
  match foundView with
  | None => throw (Error ("View " +++ dq +++ viewName +++ dq +++ " not found"))
  | Some view => ret view
  end.

(** [handleGetView(parameters)] *)
Definition handleGetView (parameters : ViewParams)
  : M (W := W) (ToolResponse GetViewResult) :=
  try_catch
    (view <-
       match as_truthy (viewId parameters) with
       | Some viewId => ViewService.getView B viewId
       | None =>
         match as_truthy (viewName parameters),
               as_truthy (parentType parameters) with
         | Some viewName, Some parentType =>
           lookupView viewName parentType (parentId parameters)
                      (parentName parameters)
         | _, _ =>
           throw (Error
             "Either viewId or (viewName with parent info) must be provided")
         end
       end ;;
     ret (createResponse
            {| gvr_view := view;
               gvr_message := "Retrieved view " +++ dq +++ view_name view
                                +++ dq |} true))
    (fun error =>
       ret (createErrorResponse ("Failed to get view: " +++ message error))).

(** The block [// Resolve view ID] of the update, delete and task
    handlers, up to the final [if (!targetViewId)] throw. *)
Definition resolveViewId (parameters : ViewParams) : M (W := W) string :=
  targetViewId <-
    match as_truthy (viewId parameters), as_truthy (viewName parameters),
          as_truthy (parentType parameters) with
    | None, Some viewName, Some parentType =>
      foundView <- lookupView viewName parentType (parentId parameters)
                              (parentName parameters) ;;
      ret (Some (view_id foundView))
    | _, _, _ => ret (viewId parameters)
    end ;;
  match as_truthy targetViewId with
  | None =>
    throw (Error
      "Either viewId or (viewName with parent info) must be provided")
  | Some targetViewId => ret targetViewId
  end.

(** The block [// Build update data] of [handleUpdateView]. *)
Definition buildUpdateData (parameters : ViewParams) : UpdateViewData :=
  {| uv_name := as_truthy (name parameters);
     uv_grouping := grouping_of (groupBy parameters)
                                (groupDirection parameters);
     uv_filters := filters_of (filters parameters);
     uv_columns := columns parameters;
     uv_settings := settings_of (settings parameters) |}.

(** [handleUpdateView(parameters)] *)
Definition handleUpdateView (parameters : ViewParams)
  : M (W := W) (ToolResponse UpdateViewResult) :=
  try_catch
    (targetViewId <- resolveViewId parameters ;;
     let updateData := buildUpdateData parameters in
     updatedView <- ViewService.updateView B targetViewId updateData ;;
     ret (createResponse
            {| uvr_id := view_id updatedView;
               uvr_name := view_name updatedView;
               uvr_type := view_type updatedView;
               uvr_message := "View " +++ dq +++ view_name updatedView +++ dq
                                +++ " updated successfully" |} true))
    (fun error =>
       ret (createErrorResponse
              ("Failed to update view: " +++ message error))).

(** [handleDeleteView(parameters)] *)
Definition handleDeleteView (parameters : ViewParams)
  : M (W := W) (ToolResponse MessageResult) :=
  try_catch
    (targetViewId <- resolveViewId parameters ;;
     ViewService.deleteView B targetViewId ;;;
     ret (createResponse {| mr_message := "View deleted successfully" |} true))
    (fun error =>
       ret (createErrorResponse
              ("Failed to delete view: " +++ message error))).

End ViewTools.
End ViewTools.

(** ** [tools/space.ts] *)

Module SpaceTools.
Section SpaceTools.
Context {W : Type} (B : Backend W).

Definition key {A} (field : option A) : nat :=
  match field with Some _ => 1 | None => 0 end.

(** [Object.keys(apiFeatures).length] *)
Definition feature_keys (f : ApiFeatures) : nat :=
  key (due_dates f) + key (time_tracking f) + key (tags f)
  + key (time_estimates f) + key (checklists f) + key (custom_fields f)
  + key (remap_dependencies f) + key (dependency_warning f)
  + key (portfolios f).

(** [Object.keys(updateData).length] *)
Definition update_keys (u : UpdateSpaceData) : nat :=
  key (us_name u) + key (us_color u) + key (us_private u)
  + key (us_admin_can_manage u) + key (us_multiple_assignees u)
  + key (us_features u).

(** [convertFeaturesToAPI(features)] *)
Definition convertFeaturesToAPI (features : option FeaturesParam)
  : option ApiFeatures :=
  match features with
  | None => None
  | Some features =>
    let apiFeatures :=
      {| due_dates :=
           match dueDates features with
           | Some d =>
             Some {| dd_enabled := dueDates_enabled d;
                     dd_start_date := startDate d;
                     dd_remap_due_dates := remapDueDates d;
                     dd_remap_closed_due_date := remapClosedDueDate d |}
           | None => None
           end;
         time_tracking := timeTracking features;
         tags := f_tags features;
         time_estimates := timeEstimates features;
         checklists := f_checklists features;
         custom_fields := customFields features;
         remap_dependencies := remapDependencies features;
         dependency_warning := dependencyWarning features;
         portfolios := f_portfolios features |} in
    if Nat.ltb 0 (feature_keys apiFeatures) then Some apiFeatures else None
  end.

(** [colorResult ? colorResult.background : color] *)
Definition colorHex (color : string) : string :=
  match processColorCommand B color with
  | Some colorResult => background colorResult
  | None => color
  end.

(** [!space.name || space.name !== name] *)
Definition name_not_set (reported : option string) (name : string) : bool :=
  negb (truthy reported)
  || negb (match reported with Some n => n =? name | None => false end).

(** The [spaceData] sent by [handleCreateSpace]. *)
Definition buildSpaceData (name : string) (parameters : SpaceParams)
  : CreateSpaceData :=
  {| cs_name := name;
     cs_multiple_assignees := multipleAssignees parameters;
     cs_features := convertFeaturesToAPI (features parameters) |}.

(** The [updateData] of [handleCreateSpace], built after the creation. *)
Definition followUpData (name : string) (parameters : SpaceParams)
           (newSpace : ClickUpSpace) : UpdateSpaceData :=
  {| us_name := if name_not_set (space_name newSpace) name
                then Some name else None;
     us_color := match as_truthy (color parameters) with
                 | Some color => Some (colorHex color)
                 | None => None
                 end;
     us_private := isPrivate parameters;
     us_admin_can_manage := None;
     us_multiple_assignees := None;
     us_features := None |}.

Definition space_url (id : string) : string :=
  "https://app.clickup.com/" +++ clickupTeamId B +++ "/v/s/" +++ id.

(** [handleCreateSpace(parameters)] *)
Definition handleCreateSpace (parameters : SpaceParams)
  : M (W := W) (ToolResponse CreateSpaceResult) :=
  match as_truthy (s_name parameters) with
  | None => throw (Error "Space name is required")
  | Some name =>
    let spaceData := buildSpaceData name parameters in
    try_catch
      (newSpace <- call (WsCreateSpace spaceData) (createSpace B spaceData) ;;
       let updateData := followUpData name parameters newSpace in
       finalSpace <-
         (if Nat.ltb 0 (update_keys updateData) then
            call (WsUpdateSpace (space_id newSpace) updateData)
                 (updateSpace B (space_id newSpace) updateData)
          else ret newSpace) ;;
       finalSpace <-
         (if name_not_set (space_name finalSpace) name then
            call (WsGetSpace (space_id finalSpace))
                 (getSpace B (space_id finalSpace))
          else ret finalSpace) ;;
       ret (createResponse
              {| csr_id := space_id finalSpace;
                 csr_name := or_else (space_name finalSpace) name;
                 csr_private := space_private finalSpace;
                 csr_features := space_features finalSpace;
                 csr_url := space_url (space_id finalSpace);
                 csr_message :=
                   "Space " +++ dq +++ or_else (space_name finalSpace) name
                     +++ dq +++ " created successfully" |} true))
      (fun error =>
         ret (createErrorResponse
                ("Failed to create space: " +++ message error)))
  end.

(** The block [// Build update data] of [handleUpdateSpace]. *)
Definition buildUpdateData (parameters : SpaceParams) : UpdateSpaceData :=
  {| us_name := as_truthy (s_name parameters);
     us_color := match as_truthy (color parameters) with
                 | Some color => Some (colorHex color)
                 | None => None
                 end;
     us_private := isPrivate parameters;
     us_admin_can_manage := adminCanManage parameters;
     us_multiple_assignees := multipleAssignees parameters;
     us_features := convertFeaturesToAPI (features parameters) |}.

(** [handleUpdateSpace(parameters)] *)
Definition handleUpdateSpace (parameters : SpaceParams)
  : M (W := W) (ToolResponse UpdateSpaceResult) :=
  try_catch
    (targetSpaceId <-
       match as_truthy (spaceId parameters),
             as_truthy (spaceName parameters) with
       | None, Some spaceName =>
         foundSpace <- call (WsFindSpaceByName spaceName)
                            (findSpaceByName B spaceName) ;;
         match foundSpace with
         | None =>
           throw (Error ("Space " +++ dq +++ spaceName +++ dq +++ " not found"))
         | Some foundSpace => ret (Some (space_id foundSpace))
         end
       | _, _ => ret (spaceId parameters)
       end ;;
     match as_truthy targetSpaceId with
     | None => throw (Error "Either spaceId or spaceName must be provided")
     | Some targetSpaceId =>
       let updateData := buildUpdateData parameters in
       updatedSpace <- call (WsUpdateSpace targetSpaceId updateData)
                            (updateSpace B targetSpaceId updateData) ;;
       ret (createResponse
              {| usr_id := space_id updatedSpace;
                 usr_name := space_name updatedSpace;
                 usr_private := space_private updatedSpace;
                 usr_message :=
                   "Space " +++ dq +++ template (space_name updatedSpace)
                     +++ dq +++ " updated successfully" |} true)
     end)
    (fun error =>
       ret (createErrorResponse
              ("Failed to update space: " +++ message error))).

(** [handleDeleteSpace(parameters)] *)
Definition handleDeleteSpace (parameters : SpaceParams)
  : M (W := W) (ToolResponse MessageResult) :=
  try_catch
    (target <-
       match as_truthy (spaceId parameters),
             as_truthy (spaceName parameters) with
       | None, Some spaceName =>
         foundSpace <- call (WsFindSpaceByName spaceName)
                            (findSpaceByName B spaceName) ;;
         match foundSpace with
         | None =>
           throw (Error ("Space " +++ dq +++ spaceName +++ dq +++ " not found"))
         | Some foundSpace =>
           ret (Some (space_id foundSpace), space_name foundSpace)
         end
       | Some targetSpaceId, None =>
         space <- call (WsGetSpace targetSpaceId) (getSpace B targetSpaceId) ;;
         ret (spaceId parameters, space_name space)
       | _, _ => ret (spaceId parameters, spaceName parameters)
       end ;;
     let (targetSpaceId, targetSpaceName) := target in
     match as_truthy targetSpaceId with
     | None => throw (Error "Either spaceId or spaceName must be provided")
     | Some targetSpaceId =>
       call (WsDeleteSpace targetSpaceId) (deleteSpace B targetSpaceId) ;;;
       ret (createResponse
              {| mr_message :=
                   "Space " +++ dq +++ template targetSpaceName +++ dq
                     +++ " deleted successfully" |} true)
     end)
    (fun error =>
       ret (createErrorResponse
              ("Failed to delete space: " +++ message error))).

End SpaceTools.
End SpaceTools.


(** ** Vocabulary of the specification *)

Module Spec.

(** The four parent types of the tool schemas. *)
Definition parentTypes : list string := ["team"; "space"; "folder"; "list"].

(** ASCII lower-casing, for the case-insensitive comparison the
    specification describes as a fallback tier. *)
Definition lower_ascii (c : ascii) : ascii :=
  let n := nat_of_ascii c in
  if (Nat.leb 65 n && Nat.leb n 90)%bool then ascii_of_nat (n + 32) else c.

Fixpoint lower (s : string) : string :=
  match s with
  | EmptyString => EmptyString
  | String c r => String (lower_ascii c) (lower r)
  end.

(** Views matching the query byte for byte (first tier). *)
Definition exact_matches (query : string) (views : list ClickUpView)
  : list ClickUpView :=
  filter (fun v => view_name v =? query) views.

(** Views matching the query up to letter case (fallback tier). *)
Definition case_insensitive_matches (query : string)
           (views : list ClickUpView) : list ClickUpView :=
  filter (fun v => lower (view_name v) =? lower query) views.

(** The messages with which the tool layer reports a name that was not
    found. *)
Definition notFoundMessage (kind name : string) : string :=
  kind +++ " " +++ dq +++ name +++ dq +++ " not found".

Definition isNotFoundMessage (m : string) : Prop :=
  exists kind name,
    In kind ["Space"; "Folder"; "List"; "View"]
    /\ m = notFoundMessage kind name.


(** Upstream fetches of view lists recorded in a log. *)
Definition is_fetch (ev : Event) : bool :=
  match ev with
  | HttpGetViews _ => true
  | _ => false
  end.

Definition fetch_count (l : list Event) : nat := length (filter is_fetch l).

(** Remote mutations. *)
Definition is_mutation (ev : Event) : bool :=
  match ev with
  | HttpPostView _ _ | HttpPutView _ _ | HttpDelete _
  | WsCreateSpace _ | WsUpdateSpace _ _ | WsDeleteSpace _ => true
  | _ => false
  end.

(** A stretch of the log without any mutation. *)
Definition quiet (evs : list Event) : Prop :=
  forallb (fun ev => negb (is_mutation ev)) evs = true.


Section Scopes.
Context {W : Type} (B : Backend W).

(** The endpoint a parent's views are fetched from, and the message its
    getter attaches to a failure. *)
Definition scope (parentType parentId : string) : option (string * string) :=
  if parentType =? "team" then
    Some ("/team/" +++ teamId B +++ "/view", "Failed to get workspace views")
  else if parentType =? "space" then
    Some ("/space/" +++ parentId +++ "/view", "Failed to get space views")
  else if parentType =? "folder" then
    Some ("/folder/" +++ parentId +++ "/view", "Failed to get folder views")
  else if parentType =? "list" then
    Some ("/list/" +++ parentId +++ "/view", "Failed to get list views")
  else None.

(** Running computations one after the other, keeping every completion. *)
Fixpoint run_all {A} (ms : list (M (W := W) A)) (s : St)
  : list (Completion A) * St :=
  match ms with
  | [] => ([], s)
  | m :: rest =>
    let (r, s1) := m s in
    let (rs, s2) := run_all rest s1 in
    (r :: rs, s2)
  end.


End Scopes.

(** Parameter records with one field replaced. *)
Definition view_with_name (p : ViewParams) (n : option string) : ViewParams :=
  {| viewId := viewId p; viewName := viewName p; parentType := parentType p;
     parentId := parentId p; parentName := parentName p;
     name := n; type := type p; groupBy := groupBy p;
     groupDirection := groupDirection p; filters := filters p;
     columns := columns p; settings := settings p |}.

Definition space_with_name (p : SpaceParams) (n : option string) : SpaceParams :=
  {| spaceId := spaceId p; spaceName := spaceName p; s_name := n;
     color := color p; isPrivate := isPrivate p;
     adminCanManage := adminCanManage p;
     multipleAssignees := multipleAssignees p; features := features p |}.

End Spec.
Import Spec.

(** ** A small concrete remote, for running the handlers *)

Module Fixture.

(** The remote keeps its views as rows (endpoint, view), its spaces as a
    list, the folders and lists of the workspace as entries (kind, name,
    id), and may be unreachable. *)
Record World : Type := mkWorld {
  rows : list (string * ClickUpView);
  spaces : list ClickUpSpace;
  tree : list (string * string * string);
  offline : bool
}.

Definition unreachable : JsError :=
  ClickUpServiceError "Rate limit exceeded" (OtherCode "RATE_LIMIT") None.

Definition views_at (endpoint : string) (w : World) : list ClickUpView :=
  map snd (filter (fun r => fst r =? endpoint) (rows w)).

Definition guarded {A} (w : World) (r : Completion A * World)
  : Completion A * World :=
  if offline w then (Thrown unreachable, w) else r.

Definition new_view (id : string) (d : CreateViewData) : ClickUpView :=
  {| view_id := id; view_name := cv_name d; view_type := cv_type d;
     view_parent := cv_parent d; view_grouping := cv_grouping d;
     view_filters := cv_filters d; view_columns := cv_columns d;
     view_settings := cv_settings d; view_creator := None;
     view_protected := None |}.

Definition plain_view (id name : string) : ClickUpView :=
  {| view_id := id; view_name := name; view_type := "list";
     view_parent := {| parent_id := "42"; parent_type := "space" |};
     view_grouping := None; view_filters := None; view_columns := None;
     view_settings := None; view_creator := None; view_protected := None |}.

Definition find_view (endpoint : string) (w : World) : option ClickUpView :=
  match find (fun r => "/view/" +++ view_id (snd r) =? endpoint) (rows w) with
  | Some r => Some (snd r)
  | None => None
  end.

Definition not_found : JsError :=
  ClickUpServiceError "Resource not found" (OtherCode "NOT_FOUND") None.

Definition find_space (id : string) (w : World) : option ClickUpSpace :=
  find (fun sp => space_id sp =? id) (spaces w).

(** The remote echoes the name it was given on creation. *)
Definition new_space (d : CreateSpaceData) : ClickUpSpace :=
  {| space_id := "s-new"; space_name := Some (cs_name d);
     space_private := None; space_features := cs_features d |}.

Definition backend : Backend World :=
  {| get_views := fun ep w => guarded w (Returned (views_at ep w), w);
     get_view := fun ep w =>
       guarded w (match find_view ep w with
                  | Some v => (Returned v, w)
                  | None => (Thrown not_found, w)
                  end);
     post_view := fun ep d w =>
       guarded w
         (let v := new_view "v-new" d in
          (Returned v,
           {| rows := rows w ++ [(ep, v)]; spaces := spaces w;
              tree := tree w; offline := offline w |}));
     put_view := fun ep d w =>
       guarded w (match find_view ep w with
                  | Some v => (Returned v, w)
                  | None => (Thrown not_found, w)
                  end);
     http_delete := fun ep w => guarded w (Returned tt, w);
     request_not_sent := fun e w => (Thrown e, w);
     Hierarchy := list (string * string * string);
     findSpaceIDByName := fun n w =>
       guarded w
         (match find (fun sp => match space_name sp with
                                | Some m => m =? n
                                | None => false
                                end) (spaces w) with
          | Some sp => (Returned (Some (space_id sp)), w)
          | None => (Returned None, w)
          end);
     getWorkspaceHierarchy := fun w => guarded w (Returned (tree w), w);
     findIDByNameInHierarchy := fun h n k =>
       match find (fun e => ((fst (fst e) =? k) && (snd (fst e) =? n))%bool) h with
       | Some e => Returned (Some {| info_id := snd e |})
       | None => Returned None
       end;
     findSpaceByName := fun n w =>
       guarded w
         (Returned (find (fun sp => match space_name sp with
                                    | Some m => m =? n
                                    | None => false
                                    end) (spaces w)), w);
     createSpace := fun d w =>
       guarded w
         (Returned (new_space d),
          {| rows := rows w; spaces := spaces w ++ [new_space d];
             tree := tree w; offline := offline w |});
     updateSpace := fun id d w =>
       guarded w (match find_space id w with
                  | Some sp => (Returned sp, w)
                  | None => (Thrown not_found, w)
                  end);
     getSpace := fun id w =>
       guarded w (match find_space id w with
                  | Some sp => (Returned sp, w)
                  | None => (Thrown not_found, w)
                  end);
     deleteSpace := fun id w => guarded w (Returned tt, w);
     teamId := "9001";
     clickupTeamId := "9001";
     processColorCommand := fun c =>
       if c =? "dark blue" then Some {| background := "#00008B" |} else None |}.

Definition start (r : list (string * ClickUpView)) : St (W := World) :=
  {| world := {| rows := r; spaces := []; tree := []; offline := false |};
     log := [] |}.

Definition start_offline : St (W := World) :=
  {| world := {| rows := []; spaces := []; tree := []; offline := true |};
     log := [] |}.

(** Space 42 holds two views that are both called Sprint 23. *)
Definition two_sprints : list (string * ClickUpView) :=
  [("/space/42/view", plain_view "v1" "Sprint 23");
   ("/space/42/view", plain_view "v2" "Sprint 23")].

(** The same views, in a workspace whose only folder is Sprint 23. *)
Definition start_with_folder : St (W := World) :=
  {| world := {| rows := two_sprints; spaces := [];
                 tree := [("folder", "Sprint 23", "f1")];
                 offline := false |};
     log := [] |}.

(** Space 42 holds one view, called Board. *)
Definition one_board : list (string * ClickUpView) :=
  [("/space/42/view", plain_view "v1" "Board")].

(** Space 42 holds the views board and Board. *)
Definition two_boards : list (string * ClickUpView) :=
  [("/space/42/view", plain_view "a" "board");
   ("/space/42/view", plain_view "b" "Board")].



(** [get_view] parameters naming a view of space 42. *)
Definition view_in_42 (n : string) : ViewParams :=
  {| viewId := None; viewName := Some n; parentType := Some "space";
     parentId := Some "42"; parentName := None; name := None; type := None;
     groupBy := None; groupDirection := None; filters := None;
     columns := None; settings := None |}.

(** [create_view] parameters: a list view Roadmap under space 42. *)
Definition create_roadmap : ViewParams :=
  {| viewId := None; viewName := None; parentType := Some "space";
     parentId := Some "42"; parentName := None; name := Some "Roadmap";
     type := Some "list"; groupBy := None; groupDirection := None;
     filters := None; columns := None; settings := None |}.


(** [create_space] parameters: a space Eng, with a colour. *)
Definition create_eng (c : option string) : SpaceParams :=
  {| spaceId := None; spaceName := None; s_name := Some "Eng"; color := c;
     isPrivate := None; adminCanManage := None; multipleAssignees := None;
     features := None |}.

Definition eng_data : CreateSpaceData :=
  {| cs_name := "Eng"; cs_multiple_assignees := None; cs_features := None |}.

(** [update_view] and [update_space] parameters with an empty new name. *)
Definition regroup_v1 : ViewParams :=
  {| viewId := Some "v1"; viewName := None; parentType := None;
     parentId := None; parentName := None; name := Some EmptyString;
     type := None; groupBy := Some "status"; groupDirection := None;
     filters := None; columns := None; settings := None |}.

Definition make_private_s1 : SpaceParams :=
  {| spaceId := Some "s1"; spaceName := None; s_name := Some EmptyString;
     color := None; isPrivate := Some true; adminCanManage := None;
     multipleAssignees := None; features := None |}.

End Fixture.


(** ** [tools/view.ts]: listing the views of a parent *)

From Stdlib Require Import DecimalString.

Module ViewListing.

(** A number inside a template literal. *)
Definition decimal (n : nat) : string :=
  NilEmpty.string_of_uint (Nat.to_uint n).

(** [v.creator?.username] *)
Definition creator_username (creator : option Json) : option Json :=
  match creator with
  | Some (JObj fields) =>
    match find (fun f => fst f =? "username") fields with
    | Some f => Some (snd f)
    | None => None
    end
  | _ => None
  end.

Record ViewSummary : Type := mkViewSummary {
  vs_id : string;
  vs_name : string;
  vs_type : string;
  vs_creator : option Json;
  vs_protected : option bool
}.

Record GetViewsResult : Type := mkGetViewsResult {
  gvs_views : list ViewSummary;
  gvs_count : nat;
  gvs_message : string
}.

(** The response data built from the fetched views. *)
Definition listing (views : list ClickUpView) : GetViewsResult :=
  {| gvs_views :=
       map (fun v => {| vs_id := view_id v;
                        vs_name := view_name v;
                        vs_type := view_type v;
                        vs_creator := creator_username (view_creator v);
                        vs_protected := view_protected v |}) views;
     gvs_count := length views;
     gvs_message := "Found " +++ decimal (length views) +++ " views" |}.

Section ViewListing.
Context {W : Type} (B : Backend W).

(** [handleGetViews(parameters)] *)
Definition handleGetViews (parameters : ViewParams)
  : M (W := W) (ToolResponse GetViewsResult) :=
  match as_truthy (parentType parameters) with
  | None => throw (Error "parentType is required")
  | Some parentType =>
    try_catch
      (resolvedParentId <-
         ViewTools.resolveParentId B parentType (parentId parameters)
                                   (parentName parameters) ;;
       views <-
         (if parentType =? "team" then ViewService.getWorkspaceViews B
          else if parentType =? "space" then
            ViewService.getSpaceViews B resolvedParentId
          else if parentType =? "folder" then
            ViewService.getFolderViews B resolvedParentId
          else if parentType =? "list" then
            ViewService.getListViews B resolvedParentId
          else throw (Error ("Invalid parent type: " +++ parentType))) ;;
       ret (createResponse (listing views) true))
      (fun error =>
         ret (createErrorResponse ("Failed to get views: " +++ message error)))
  end.

End ViewListing.
End ViewListing.

(** ** [getViewTasks] and [handleGetViewTasks] *)

Module ViewTasks.

Record TaskStatus : Type := mkTaskStatus { status : string }.

Record TaskUser : Type := mkTaskUser { username : string }.

(** A task of [ViewTasksResponse], with the fields the handler reads. *)
Record ClickUpTask : Type := mkTask {
  task_id : string;
  task_name : string;
  task_status : TaskStatus;
  task_assignees : list TaskUser;
  task_list : Json;
  task_url : string
}.

Record ViewTasksResponse : Type := mkViewTasksResponse {
  tasks : list ClickUpTask;
  last_page : option bool
}.

Record TaskSummary : Type := mkTaskSummary {
  ts_id : string;
  ts_name : string;
  ts_status : string;
  ts_assignees : list string;
  ts_list : Json;
  ts_url : string
}.

Record GetViewTasksResult : Type := mkGetViewTasksResult {
  gtr_tasks : list TaskSummary;
  gtr_count : nat;
  gtr_hasMore : bool;
  gtr_page : Z;
  gtr_message : string
}.

(** [!result.last_page] *)
Definition hasMore (result : ViewTasksResponse) : bool :=
  negb (match last_page result with Some b => b | None => false end).

(** The response data built from one page of tasks. *)
Definition page_of_tasks (result : ViewTasksResponse) (page : Z)
  : GetViewTasksResult :=
  {| gtr_tasks :=
       map (fun t => {| ts_id := task_id t;
                        ts_name := task_name t;
                        ts_status := status (task_status t);
                        ts_assignees := map username (task_assignees t);
                        ts_list := task_list t;
                        ts_url := task_url t |}) (tasks result);
     gtr_count := length (tasks result);
     gtr_hasMore := hasMore result;
     gtr_page := page;
     gtr_message := "Retrieved " +++ ViewListing.decimal (length (tasks result))
                      +++ " tasks from view" |}.

Section ViewTasks.
Context {W : Type} (B : Backend W).

(** [makeRequest(() => client.get<ViewTasksResponse>(endpoint,
    { params: { page } }))], [.data]: a call of the HTTP client that is not
    among the logged ones, taken as it comes. *)
Context (get_tasks : string -> Z -> M (W := W) ViewTasksResponse).

(** [getViewTasks(viewId, page = 0)] *)
Definition getViewTasks (viewId : string) (page : Z)
  : M (W := W) ViewTasksResponse :=
  try_catch
    (get_tasks ("/view/" +++ viewId +++ "/task") page)
    (fun error =>
       throw (ViewService.handleError error
                (Some ("Failed to get tasks from view " +++ viewId)))).

(** [handleGetViewTasks(parameters)]; [page] is the parameter of that
    name, [0] when it is absent. *)
Definition handleGetViewTasks (parameters : ViewParams) (page : option Z)
  : M (W := W) (ToolResponse GetViewTasksResult) :=
  let page := match page with Some p => p | None => 0%Z end in
  try_catch
    (targetViewId <- ViewTools.resolveViewId B parameters ;;
     result <- getViewTasks targetViewId page ;;
     ret (createResponse (page_of_tasks result page) true))
    (fun error =>
       ret (createErrorResponse
              ("Failed to get view tasks: " +++ message error))).

End ViewTasks.
End ViewTasks.

(** ** Shapes of errors and of logs *)

Module Shapes.

(** What the service makes of a failure when the method names its own,
    non-empty message: a service error is kept, a plain error is wrapped. *)
Definition wrapped (e : JsError) (msg : string) : JsError :=
  match e with
  | ClickUpServiceError _ _ _ => e
  | Error _ => ClickUpServiceError msg UNKNOWN (Some e)
  end.

(** The outcome of a service method that forwards one remote answer. *)
Definition forwarded {A} (r : Completion A) (msg : string) : Completion A :=
  match r with
  | Returned a => Returned a
  | Thrown e => Thrown (wrapped e msg)
  end.

(** A completion that is a value, not an exception. *)
Definition returns {A} (r : Completion A) : Prop :=
  match r with
  | Returned _ => True
  | Thrown _ => False
  end.

(** A tool response that reports success. *)
Definition succeeded {P} (r : Completion (ToolResponse P)) : Prop :=
  match r with
  | Returned (createResponse _ _) => True
  | _ => False
  end.

(** Number of supplied entries among optional values. *)
Definition supplied {A} (o : option A) : nat :=
  match o with Some _ => 1 | None => 0 end.

End Shapes.
Import Shapes.

(** ** More parameters for the concrete remote *)

Module Cases.

Definition v1 : ClickUpView := Fixture.plain_view "v1" "Board".

(** [delete_view] by name in space 42. *)
Definition delete_by_name (n : string) : ViewParams := Fixture.view_in_42 n.

(** [delete_view] with both an id and a name. *)
Definition delete_v9_or_board : ViewParams :=
  {| viewId := Some "v9"; viewName := Some "Board"; parentType := Some "space";
     parentId := Some "42"; parentName := None; name := None; type := None;
     groupBy := None; groupDirection := None; filters := None;
     columns := None; settings := None |}.

(** [create_view] without a type. *)
Definition create_without_type : ViewParams :=
  {| viewId := None; viewName := None; parentType := Some "space";
     parentId := Some "42"; parentName := None; name := Some "Roadmap";
     type := None; groupBy := None; groupDirection := None;
     filters := None; columns := None; settings := None |}.

(** [create_view] under a folder known by a name the workspace lacks. *)
Definition create_in_unknown_folder : ViewParams :=
  {| viewId := None; viewName := None; parentType := Some "folder";
     parentId := None; parentName := Some "Nowhere"; name := Some "Roadmap";
     type := Some "list"; groupBy := None; groupDirection := None;
     filters := None; columns := None; settings := None |}.

(** [get_views] of a parent of a given type and id. *)
Definition views_of (pt : option string) (pid : option string) : ViewParams :=
  {| viewId := None; viewName := None; parentType := pt;
     parentId := pid; parentName := None; name := None; type := None;
     groupBy := None; groupDirection := None; filters := None;
     columns := None; settings := None |}.

(** [update_view] of v1 with nothing to change. *)
Definition update_nothing : ViewParams :=
  {| viewId := Some "v1"; viewName := None; parentType := None;
     parentId := None; parentName := None; name := None; type := None;
     groupBy := None; groupDirection := Some (-1)%Z; filters := None;
     columns := None; settings := None |}.

Definition space_params (id n : option string) : SpaceParams :=
  {| spaceId := id; spaceName := n; s_name := None; color := None;
     isPrivate := None; adminCanManage := None; multipleAssignees := None;
     features := None |}.

Definition eng : ClickUpSpace :=
  {| space_id := "s1"; space_name := Some "Eng"; space_private := None;
     space_features := None |}.

(** A remote with the space Eng (s1) and nothing else. *)
Definition start_with_eng : St (W := Fixture.World) :=
  {| world := {| Fixture.rows := []; Fixture.spaces := [eng];
                 Fixture.tree := []; Fixture.offline := false |};
     log := [] |}.

(** Only tags are configured. *)
Definition only_tags : FeaturesParam :=
  {| dueDates := None; timeTracking := None;
     f_tags := Some {| enabled := Some true |}; timeEstimates := None;
     f_checklists := None; customFields := None; remapDependencies := None;
     dependencyWarning := None; f_portfolios := None |}.

(** A features object without any of the nine known keys. *)
Definition no_features : FeaturesParam :=
  {| dueDates := None; timeTracking := None; f_tags := None;
     timeEstimates := None; f_checklists := None; customFields := None;
     remapDependencies := None; dependencyWarning := None;
     f_portfolios := None |}.

(** A task fetch that answers one page with one task, the last page. *)
Definition one_task : ViewTasks.ViewTasksResponse :=
  {| ViewTasks.tasks :=
       [{| ViewTasks.task_id := "t1"; ViewTasks.task_name := "Write";
           ViewTasks.task_status := {| ViewTasks.status := "open" |};
           ViewTasks.task_assignees := [{| ViewTasks.username := "ann" |}];
           ViewTasks.task_list := JNull; ViewTasks.task_url := "u" |}];
     ViewTasks.last_page := Some true |}.

Definition get_one_task (endpoint : string) (page : Z)
  : M (W := Fixture.World) ViewTasks.ViewTasksResponse :=
  ret one_task.

Definition get_tasks_failing (endpoint : string) (page : Z)
  : M (W := Fixture.World) ViewTasks.ViewTasksResponse :=
  throw (Error "socket hang up").




(** [update_view] parameters with an empty new name and a direction but no
    field to group by. *)
Definition redirect_v1 : ViewParams :=
  {| viewId := Some "v1"; viewName := None; parentType := None;
     parentId := None; parentName := None; name := Some EmptyString;
     type := None; groupBy := None; groupDirection := Some (-1)%Z;
     filters := None; columns := None; settings := None |}.

(** [update_space] parameters with an empty new name, an empty colour and a
    features object without entries. *)
Definition recolour_s1 : SpaceParams :=
  {| spaceId := Some "s1"; spaceName := None; s_name := Some EmptyString;
     color := Some EmptyString; isPrivate := None; adminCanManage := None;
     multipleAssignees := None;
     features := Some {| dueDates := None; timeTracking := None;
                         f_tags := None; timeEstimates := None;
                         f_checklists := None; customFields := None;
                         remapDependencies := None; dependencyWarning := None;
                         f_portfolios := None |} |}.

End Cases.

(** * Properties *)

(** ** The monad and the view getters *)

Section ViewLookup.
Context {W : Type} (B : Backend W).

Lemma handleError_is_service_error (e : JsError) (m : option string) :
  instanceofClickUpServiceError (ViewService.handleError e m) = true.
Proof.
  unfold ViewService.handleError.
  destruct e as [msg | msg code data]; reflexivity.
Qed.

Lemma handleError_twice (e : JsError) (m m' : option string) :
  ViewService.handleError (ViewService.handleError e m) m'
  = ViewService.handleError e m.
Proof.
  unfold ViewService.handleError at 1.
  now rewrite handleError_is_service_error.
Qed.


(** One getter: a single logged GET, whose failure is passed through
    [handleError]. *)
Lemma getter_run (endpoint msg : string) (s : St) :
  try_catch (call (HttpGetViews endpoint) (get_views B endpoint))
            (fun error => throw (ViewService.handleError error (Some msg))) s
  = match get_views B endpoint (world s) with
    | (Returned views, w') =>
      (Returned views,
       {| world := w'; log := log s ++ [HttpGetViews endpoint] |})
    | (Thrown e, w') =>
      (Thrown (ViewService.handleError e (Some msg)),
       {| world := w'; log := log s ++ [HttpGetViews endpoint] |})
    end.
Proof.
  unfold try_catch, call, throw.
  destruct (get_views B endpoint (world s)) as [[views | e] w']; reflexivity.
Qed.

(** [findViewByName] on a parent of one of the four kinds: one GET on the
    parent's endpoint, then [find] on what came back. *)
Lemma findViewByName_run (parentId parentType viewName endpoint msg : string)
      (s : St) :
  scope B parentType parentId = Some (endpoint, msg) ->
  ViewService.findViewByName B parentId parentType viewName s
  = match get_views B endpoint (world s) with
    | (Returned views, w') =>
      (Returned (ViewService.find_by_name viewName views),
       {| world := w'; log := log s ++ [HttpGetViews endpoint] |})
    | (Thrown e, w') =>
      (Thrown (ViewService.handleError e (Some msg)),
       {| world := w'; log := log s ++ [HttpGetViews endpoint] |})
    end.
Proof.
  unfold scope, ViewService.findViewByName.
  unfold ViewService.getWorkspaceViews, ViewService.getSpaceViews,
    ViewService.getFolderViews, ViewService.getListViews.
  intros Hscope.
  destruct (parentType =? "team");
    [| destruct (parentType =? "space");
       [| destruct (parentType =? "folder");
          [| destruct (parentType =? "list"); [| discriminate]]]];
    injection Hscope as <- <-;
    unfold try_catch at 1; unfold bind; rewrite getter_run;
    destruct (get_views B _ (world s)) as [[views | e] w'];
    unfold ret, throw; try reflexivity;
    now rewrite handleError_twice.
Qed.

(** An unknown parent type is rejected before any request. *)
Lemma findViewByName_invalid (parentId parentType viewName : string) (s : St) :
  scope B parentType parentId = None ->
  ViewService.findViewByName B parentId parentType viewName s
  = (Thrown (ClickUpServiceError ("Invalid parent type: " +++ parentType)
                                 INVALID_PARAMETER None), s).
Proof.
  unfold scope, ViewService.findViewByName.
  intros Hscope.
  destruct (parentType =? "team"); [discriminate |].
  destruct (parentType =? "space"); [discriminate |].
  destruct (parentType =? "folder"); [discriminate |].
  destruct (parentType =? "list"); [discriminate |].
  reflexivity.
Qed.

Lemma scope_of_parentTypes (parentType parentId : string) :
  In parentType parentTypes ->
  exists endpoint msg, scope B parentType parentId = Some (endpoint, msg).
Proof.
  unfold parentTypes, scope.
  intros [<- | [<- | [<- | [<- | []]]]]; simpl; eauto.
Qed.

End ViewLookup.

(** ** [find] *)

Lemma find_by_name_first (q : string) (pre rest : list ClickUpView)
      (v : ClickUpView) :
  view_name v = q ->
  (forall u, In u pre -> view_name u <> q) ->
  ViewService.find_by_name q (pre ++ v :: rest) = Some v.
Proof.
  intros Hv Hpre. unfold ViewService.find_by_name.
  induction pre as [| u pre IH]; simpl.
  - now rewrite (proj2 (String.eqb_eq _ _) Hv).
  - destruct (view_name u =? q) eqn:Hu.
    + apply String.eqb_eq in Hu. exfalso. apply (Hpre u); [now left | exact Hu].
    + apply IH. intros u' Hin. apply Hpre. now right.
Qed.


Lemma find_by_name_exact (q : string) (views : list ClickUpView) :
  ViewService.find_by_name q views = hd_error (exact_matches q views).
Proof.
  unfold ViewService.find_by_name, exact_matches.
  induction views as [| u views IH]; simpl; [reflexivity |].
  destruct (view_name u =? q); [reflexivity | exact IH].
Qed.

(** ** Name resolution among the views of a parent *)

(** C1, as found: with two views called Sprint 23 in space 42,
    [findViewByName] returns the first of them, and [get_view] answers with
    that view; no ambiguity is reported and no candidate list is built. *)
Lemma findViewByName_two_sprints_picks_first :
  map view_id
      (exact_matches "Sprint 23"
         (Fixture.views_at "/space/42/view"
            (world (Fixture.start Fixture.two_sprints))))
  = ["v1"; "v2"]
  /\ fst (ViewService.findViewByName Fixture.backend "42" "space" "Sprint 23"
            (Fixture.start Fixture.two_sprints))
     = Returned (Some (Fixture.plain_view "v1" "Sprint 23"))
  /\ fst (ViewTools.handleGetView Fixture.backend
            (Fixture.view_in_42 "Sprint 23")
            (Fixture.start Fixture.two_sprints))
     = Returned (createResponse
                   {| gvr_view := Fixture.plain_view "v1" "Sprint 23";
                      gvr_message := "Retrieved view " +++ dq +++ "Sprint 23"
                                       +++ dq |} true).
Proof. repeat split; reflexivity. Qed.

(** A parent looked up by name: the one call made, and what becomes of its
    answer. A failure of the call is thrown on as it is. *)
Lemma resolveParentId_named
      (W : Type) (B : Backend W) (pid pname : option string) (n : string)
      (s : St) :
  truthy pid = false ->
  as_truthy pname = Some n ->
  ViewTools.resolveParentId B "space" pid pname s
  = (match fst (findSpaceIDByName B n (world s)) with
     | Returned (Some (String c r)) => Returned (String c r)
     | Returned _ => Thrown (Error (notFoundMessage "Space" n))
     | Thrown e => Thrown e
     end,
     {| world := snd (findSpaceIDByName B n (world s));
        log := log s ++ [WsFindSpaceIDByName n] |})
  /\ ViewTools.resolveParentId B "folder" pid pname s
     = (match fst (getWorkspaceHierarchy B (world s)) with
        | Returned hierarchy =>
          match findIDByNameInHierarchy B hierarchy n "folder" with
          | Returned (Some folderInfo) => Returned (info_id folderInfo)
          | Returned None => Thrown (Error (notFoundMessage "Folder" n))
          | Thrown e => Thrown e
          end
        | Thrown e => Thrown e
        end,
        {| world := snd (getWorkspaceHierarchy B (world s));
           log := log s ++ [WsGetWorkspaceHierarchy] |})
  /\ ViewTools.resolveParentId B "list" pid pname s
     = (match fst (getWorkspaceHierarchy B (world s)) with
        | Returned hierarchy =>
          match findIDByNameInHierarchy B hierarchy n "list" with
          | Returned (Some listInfo) => Returned (info_id listInfo)
          | Returned None => Thrown (Error (notFoundMessage "List" n))
          | Thrown e => Thrown e
          end
        | Thrown e => Thrown e
        end,
        {| world := snd (getWorkspaceHierarchy B (world s));
           log := log s ++ [WsGetWorkspaceHierarchy] |}).
Proof.
  intros Hpid Hname.
  assert (Hid : as_truthy pid = None)
    by (destruct pid as [[| c r] |]; try discriminate; reflexivity).
  unfold ViewTools.resolveParentId. simpl. rewrite Hid, Hname.
  unfold bind, call, sync. split; [| split].
  - destruct (findSpaceIDByName B n (world s)) as [[[[| c r] |] | e] w'];
      reflexivity.
  - destruct (getWorkspaceHierarchy B (world s)) as [[h | e] w']; simpl;
      [| reflexivity].
    destruct (findIDByNameInHierarchy B h n "folder") as [[info |] | e];
      reflexivity.
  - destruct (getWorkspaceHierarchy B (world s)) as [[h | e] w']; simpl;
      [| reflexivity].
    destruct (findIDByNameInHierarchy B h n "list") as [[info |] | e];
      reflexivity.
Qed.

(** C1, amended: [findViewByName] returns the first view, in the order the
    remote listed them, whose name equals the query (a single view, however
    many match). And a folder looked up by name, whatever else the remote
    holds: [resolveParentId] fetches the workspace hierarchy once and
    returns the id of the one entry [findIDByNameInHierarchy] yields,
    throws the folder-not-found error when it yields none, and throws on
    what the fetch or the search throws. *)
Theorem findViewByName_returns_first_match (W : Type) (B : Backend W) :
  (forall (parentId parentType viewName endpoint msg : string)
          (s : St) (views : list ClickUpView) (w' : W),
      scope B parentType parentId = Some (endpoint, msg) ->
      get_views B endpoint (world s) = (Returned views, w') ->
      fst (ViewService.findViewByName B parentId parentType viewName s)
      = Returned (hd_error (exact_matches viewName views))
      /\ (forall pre v rest,
            views = pre ++ v :: rest ->
            view_name v = viewName ->
            (forall u, In u pre -> view_name u <> viewName) ->
            fst (ViewService.findViewByName B parentId parentType viewName s)
            = Returned (Some v)))
  /\ (forall (parentId parentName : option string) (n : string) (s : St),
         truthy parentId = false ->
         as_truthy parentName = Some n ->
         ViewTools.resolveParentId B "folder" parentId parentName s
         = (match fst (getWorkspaceHierarchy B (world s)) with
            | Returned hierarchy =>
              match findIDByNameInHierarchy B hierarchy n "folder" with
              | Returned (Some folderInfo) => Returned (info_id folderInfo)
              | Returned None => Thrown (Error (notFoundMessage "Folder" n))
              | Thrown e => Thrown e
              end
            | Thrown e => Thrown e
            end,
            {| world := snd (getWorkspaceHierarchy B (world s));
               log := log s ++ [WsGetWorkspaceHierarchy] |})).
Proof.
  split.
  - intros parentId parentType viewName endpoint msg s views w' Hscope Hget.
    erewrite findViewByName_run by exact Hscope. rewrite Hget. simpl.
    split.
    + now rewrite find_by_name_exact.
    + intros pre v rest -> Hv Hpre. now rewrite find_by_name_first.
  - intros parentId parentName n s Hid Hname.
    apply (resolveParentId_named B parentId parentName s Hid Hname).
Qed.

Lemma findViewByName_returns_first_match_witness :
  fst (ViewService.findViewByName Fixture.backend "42" "space" "Sprint 23"
         Fixture.start_with_folder)
  = Returned (hd_error (exact_matches "Sprint 23"
                          (map snd Fixture.two_sprints)))
  /\ fst (ViewService.findViewByName Fixture.backend "42" "space" "Sprint 23"
            Fixture.start_with_folder)
     = Returned (Some (Fixture.plain_view "v1" "Sprint 23"))
  /\ ViewTools.resolveParentId Fixture.backend "folder" (Some EmptyString)
                               (Some "Sprint 23") Fixture.start_with_folder
     = (Returned "f1",
        {| world := world Fixture.start_with_folder;
           log := [WsGetWorkspaceHierarchy] |})
  /\ ViewTools.resolveParentId Fixture.backend "folder" None
                               (Some "Sprint 23") Fixture.start_offline
     = (Thrown Fixture.unreachable,
        {| world := world Fixture.start_offline;
           log := [WsGetWorkspaceHierarchy] |}).
Proof.
  destruct (@findViewByName_returns_first_match Fixture.World Fixture.backend)
    as (Hviews & Hfolder).
  destruct (Hviews "42" "space" "Sprint 23" "/space/42/view"
                   "Failed to get space views" Fixture.start_with_folder
                   (map snd Fixture.two_sprints)
                   (world Fixture.start_with_folder) eq_refl eq_refl)
    as (Hhead & Hfirst).
  split; [exact Hhead |]. split; [| split].
  - apply (Hfirst [] (Fixture.plain_view "v1" "Sprint 23")
                  [Fixture.plain_view "v2" "Sprint 23"] eq_refl eq_refl).
    intros u [].
  - exact (Hfolder (Some EmptyString) (Some "Sprint 23") "Sprint 23"
                   Fixture.start_with_folder eq_refl eq_refl).
  - exact (Hfolder None (Some "Sprint 23") "Sprint 23"
                   Fixture.start_offline eq_refl eq_refl).
Defined.

(** C2, as found: space 42 holds one view, Board; the query board has no
    exact match and exactly one case-insensitive match, and the lookup
    answers null, which [get_view] reports as not found. *)
Lemma findViewByName_board_no_fallback :
  exact_matches "board" (map snd Fixture.one_board) = []
  /\ case_insensitive_matches "board" (map snd Fixture.one_board)
     = [Fixture.plain_view "v1" "Board"]
  /\ fst (ViewService.findViewByName Fixture.backend "42" "space" "board"
            (Fixture.start Fixture.one_board))
     = Returned None
  /\ fst (ViewTools.handleGetView Fixture.backend (Fixture.view_in_42 "board")
            (Fixture.start Fixture.one_board))
     = Returned (createErrorResponse
                   ("Failed to get view: " +++ notFoundMessage "View" "board")).
Proof. repeat split; reflexivity. Qed.

(** C2, amended: names are compared byte for byte only. Once the parent's
    views are fetched, [findViewByName] answers null exactly when no view
    has a name equal to the query, whatever matches up to letter case. *)
Theorem findViewByName_null_iff_no_exact_match
        (W : Type) (B : Backend W)
        (parentId parentType viewName endpoint msg : string)
        (s : St) (views : list ClickUpView) (w' : W) :
  scope B parentType parentId = Some (endpoint, msg) ->
  get_views B endpoint (world s) = (Returned views, w') ->
  fst (ViewService.findViewByName B parentId parentType viewName s)
  = Returned None
  <-> exact_matches viewName views = [].
Proof.
  intros Hscope Hget.
  erewrite findViewByName_run by exact Hscope. rewrite Hget. simpl.
  rewrite find_by_name_exact.
  destruct (exact_matches viewName views) as [| v rest]; simpl; split;
    intros H; try reflexivity; discriminate.
Qed.

Lemma findViewByName_null_iff_no_exact_match_witness :
  fst (ViewService.findViewByName Fixture.backend "42" "space" "board"
         (Fixture.start Fixture.one_board))
  = Returned None
  <-> exact_matches "board" (map snd Fixture.one_board) = [].
Proof.
  refine (@findViewByName_null_iff_no_exact_match
            Fixture.World Fixture.backend "42" "space" "board"
            "/space/42/view" "Failed to get space views"
            (Fixture.start Fixture.one_board)
            (map snd Fixture.one_board)
            (world (Fixture.start Fixture.one_board)) _ _);
    reflexivity.
Defined.

(** C3: when exactly one view of the fetched parent has a name equal to the
    query byte for byte, [findViewByName] returns that view, whatever other
    views match only up to letter case. *)
Theorem findViewByName_unique_exact_match
        (W : Type) (B : Backend W)
        (parentId parentType viewName endpoint msg : string)
        (s : St) (views : list ClickUpView) (w' : W) (v : ClickUpView) :
  scope B parentType parentId = Some (endpoint, msg) ->
  get_views B endpoint (world s) = (Returned views, w') ->
  exact_matches viewName views = [v] ->
  fst (ViewService.findViewByName B parentId parentType viewName s)
  = Returned (Some v).
Proof.
  intros Hscope Hget Hone.
  erewrite findViewByName_run by exact Hscope. rewrite Hget. simpl.
  now rewrite find_by_name_exact, Hone.
Qed.

Lemma findViewByName_unique_exact_match_witness :
  case_insensitive_matches "Board" (map snd Fixture.two_boards)
  = [Fixture.plain_view "a" "board"; Fixture.plain_view "b" "Board"]
  /\ fst (ViewService.findViewByName Fixture.backend "42" "space" "Board"
            (Fixture.start Fixture.two_boards))
     = Returned (Some (Fixture.plain_view "b" "Board")).
Proof.
  split; [reflexivity |].
  refine (@findViewByName_unique_exact_match
            Fixture.World Fixture.backend "42" "space" "Board"
            "/space/42/view" "Failed to get space views"
            (Fixture.start Fixture.two_boards)
            (map snd Fixture.two_boards)
            (world (Fixture.start Fixture.two_boards))
            (Fixture.plain_view "b" "Board") _ _ _);
    reflexivity.
Defined.

(** ** Parent resolution *)

Section ParentResolution.
Context {W : Type} (B : Backend W).

Lemma resolveParentId_team (parentId parentName : option string) (s : St) :
  ViewTools.resolveParentId B "team" parentId parentName s
  = (Returned (clickupTeamId B), s).
Proof. reflexivity. Qed.

Lemma resolveParentId_by_id (parentType : string)
      (parentId parentName : option string) (id : string) (s : St) :
  parentType <> "team" ->
  as_truthy parentId = Some id ->
  ViewTools.resolveParentId B parentType parentId parentName s
  = (Returned id, s).
Proof.
  intros Hteam Hid. unfold ViewTools.resolveParentId.
  apply String.eqb_neq in Hteam. now rewrite Hteam, Hid.
Qed.

(** Without a usable id or name the resolver throws before any call. *)
Lemma resolveParentId_nothing_usable (parentType : string)
      (parentId parentName : option string) (s : St) :
  parentType <> "team" ->
  truthy parentId = false ->
  truthy parentName = false ->
  ViewTools.resolveParentId B parentType parentId parentName s
  = (Thrown (Error ("Either parentId or parentName must be provided for "
                      +++ parentType)), s).
Proof.
  intros Hteam Hid Hname. unfold ViewTools.resolveParentId.
  apply String.eqb_neq in Hteam. rewrite Hteam.
  destruct parentId as [[| c r] |]; try discriminate;
    destruct parentName as [[| c' r'] |]; try discriminate; reflexivity.
Qed.

End ParentResolution.

Lemma missing_parent_is_not_not_found (parentType : string) :
  ~ isNotFoundMessage
      ("Either parentId or parentName must be provided for " +++ parentType).
Proof.
  intros (kind & n & Hkind & Heq).
  unfold notFoundMessage in Heq.
  destruct Hkind as [<- | [<- | [<- | [<- | []]]]]; discriminate Heq.
Qed.

(** C4, as found: a parent id that is supplied as the empty string is not
    returned; with no name beside it the resolver throws. *)
Lemma resolveParentId_empty_id_not_returned :
  ViewTools.resolveParentId Fixture.backend "space" (Some EmptyString) None
                            (Fixture.start [])
  = (Thrown (Error "Either parentId or parentName must be provided for space"),
     Fixture.start []).
Proof. reflexivity. Qed.

(** C4, amended: for the parent type team the resolver returns the
    configured workspace id whatever id or name is supplied; otherwise a
    supplied, non-empty parent id is returned unchanged. In both cases the
    world and the log are left as they were: nothing is looked up. *)
Theorem resolveParentId_team_then_id
        (W : Type) (B : Backend W) (parentType : string)
        (parentId parentName : option string) (s : St) :
  (parentType = "team" ->
   ViewTools.resolveParentId B parentType parentId parentName s
   = (Returned (clickupTeamId B), s))
  /\ (parentType <> "team" ->
      forall id, parentId = Some id -> id <> EmptyString ->
      ViewTools.resolveParentId B parentType parentId parentName s
      = (Returned id, s)).
Proof.
  split.
  - intros ->. apply resolveParentId_team.
  - intros Hteam id -> Hid. apply resolveParentId_by_id; [exact Hteam |].
    destruct id; [contradiction | reflexivity].
Qed.

Lemma resolveParentId_team_then_id_witness :
  ViewTools.resolveParentId Fixture.backend "team" (Some "77") (Some "Eng")
                            (Fixture.start [])
  = (Returned "9001", Fixture.start [])
  /\ ViewTools.resolveParentId Fixture.backend "folder" (Some "77") (Some "Eng")
                               (Fixture.start [])
     = (Returned "77", Fixture.start []).
Proof.
  split.
  - apply (proj1 (resolveParentId_team_then_id Fixture.backend "team"
                    (Some "77") (Some "Eng") (Fixture.start []))).
    reflexivity.
  - apply (proj2 (resolveParentId_team_then_id Fixture.backend "folder"
                    (Some "77") (Some "Eng") (Fixture.start []))
                 ltac:(discriminate) "77" eq_refl ltac:(discriminate)).
Defined.

(** C5: for a parent type other than team, with neither parent id nor
    parent name supplied, the resolver throws the error naming the pair
    parentId / parentName; its message is none of the not-found messages,
    and the world and the log are untouched, so nothing was fetched. *)
Theorem resolveParentId_missing_parent
        (W : Type) (B : Backend W) (parentType : string) (s : St) :
  parentType <> "team" ->
  ViewTools.resolveParentId B parentType None None s
  = (Thrown (Error ("Either parentId or parentName must be provided for "
                      +++ parentType)), s)
  /\ ~ isNotFoundMessage
       ("Either parentId or parentName must be provided for " +++ parentType).
Proof.
  intros Hteam. split.
  - now apply resolveParentId_nothing_usable.
  - apply missing_parent_is_not_not_found.
Qed.

Lemma resolveParentId_missing_parent_witness :
  ViewTools.resolveParentId Fixture.backend "list" None None (Fixture.start [])
  = (Thrown (Error "Either parentId or parentName must be provided for list"),
     Fixture.start [])
  /\ ~ isNotFoundMessage
       "Either parentId or parentName must be provided for list".
Proof.
  apply (resolveParentId_missing_parent Fixture.backend (parentType := "list")
           (Fixture.start [])).
  discriminate.
Defined.

(** ** Failures on the way to a view *)

Section GetView.
Context {W : Type} (B : Backend W).


Lemma lookupView_run (q pt : string) (pid pname : option string) (s : St) :
  ViewTools.lookupView B q pt pid pname s
  = match ViewTools.resolveParentId B pt pid pname s with
    | (Returned rid, s1) =>
      match ViewService.findViewByName B rid pt q s1 with
      | (Returned (Some view), s2) => (Returned view, s2)
      | (Returned None, s2) =>
        (Thrown (Error (notFoundMessage "View" q)), s2)
      | (Thrown e, s2) => (Thrown e, s2)
      end
    | (Thrown e, s1) => (Thrown e, s1)
    end.
Proof.
  unfold ViewTools.lookupView, ViewTools.findViewByName, bind.
  destruct (ViewTools.resolveParentId B pt pid pname s) as [[rid | e] s1];
    [| reflexivity].
  destruct (ViewService.findViewByName B rid pt q s1) as [[[view |] | e] s2];
    reflexivity.
Qed.

End GetView.





(** ** Upstream fetches per resolution *)

Lemma fetch_count_app (l l' : list Event) :
  fetch_count (l ++ l') = fetch_count l + fetch_count l'.
Proof.
  unfold fetch_count. now rewrite filter_app, length_app.
Qed.

Lemma fetch_count_repeat (endpoint : string) (n : nat) :
  fetch_count (repeat (HttpGetViews endpoint) n) = n.
Proof.
  unfold fetch_count.
  induction n as [| n IH]; simpl; [reflexivity | now rewrite IH].
Qed.

Lemma findViewByName_log (W : Type) (B : Backend W)
      (parentId parentType viewName endpoint msg : string) (s : St) :
  scope B parentType parentId = Some (endpoint, msg) ->
  log (snd (ViewService.findViewByName B parentId parentType viewName s))
  = log s ++ [HttpGetViews endpoint].
Proof.
  intros Hscope. erewrite findViewByName_run by exact Hscope.
  destruct (get_views B endpoint (world s)) as [[views | e] w']; reflexivity.
Qed.

(** C7, as found: two lookups in space 42, one after the other and with
    nothing changed in between, send two GETs to the same endpoint. *)
Lemma findViewByName_twice_fetches_twice :
  log (snd (run_all
              [ViewService.findViewByName Fixture.backend "42" "space" "Board";
               ViewService.findViewByName Fixture.backend "42" "space" "Roadmap"]
              (Fixture.start Fixture.one_board)))
  = [HttpGetViews "/space/42/view"; HttpGetViews "/space/42/view"]
  /\ ~ fetch_count
         (log (snd (run_all
              [ViewService.findViewByName Fixture.backend "42" "space" "Board";
               ViewService.findViewByName Fixture.backend "42" "space" "Roadmap"]
              (Fixture.start Fixture.one_board)))) <= 1.
Proof.
  split; [reflexivity |].
  intros H. vm_compute in H. lia.
Qed.

(** C7, amended: nothing is cached or shared between lookups. Every
    [findViewByName] on a parent of one of the four kinds sends one GET of
    its own to that parent's endpoint, so a run of n lookups in one parent
    sends n fetches. *)
Theorem findViewByName_fetches_every_time
        (W : Type) (B : Backend W)
        (parentId parentType endpoint msg : string)
        (names : list string) (s : St) :
  scope B parentType parentId = Some (endpoint, msg) ->
  log (snd (run_all
              (map (ViewService.findViewByName B parentId parentType) names) s))
  = log s ++ repeat (HttpGetViews endpoint) (length names)
  /\ fetch_count
       (log (snd (run_all
              (map (ViewService.findViewByName B parentId parentType) names) s)))
     = fetch_count (log s) + length names.
Proof.
  intros Hscope.
  assert (Hlog : forall names s,
             log (snd (run_all
                    (map (ViewService.findViewByName B parentId parentType)
                         names) s))
             = log s ++ repeat (HttpGetViews endpoint) (length names)).
  { clear names s. induction names as [| n names IH]; intros s; simpl.
    - now rewrite app_nil_r.
    - pose proof (findViewByName_log B parentId parentType n s Hscope) as Hone.
      destruct (ViewService.findViewByName B parentId parentType n s)
        as [r s1].
      specialize (IH s1).
      destruct (run_all
                  (map (ViewService.findViewByName B parentId parentType) names)
                  s1) as [rs s2].
      simpl in *. rewrite IH, Hone, <- app_assoc. reflexivity. }
  split; [apply Hlog |].
  now rewrite Hlog, fetch_count_app, fetch_count_repeat.
Qed.

Lemma findViewByName_fetches_every_time_witness :
  fetch_count
    (log (snd (run_all
           (map (ViewService.findViewByName Fixture.backend "42" "space")
                ["Board"; "Roadmap"; "Board"])
           (Fixture.start Fixture.one_board))))
  = 3.
Proof.
  apply (proj2 (@findViewByName_fetches_every_time
                  Fixture.World Fixture.backend "42" "space" "/space/42/view"
                  "Failed to get space views" ["Board"; "Roadmap"; "Board"]
                  (Fixture.start Fixture.one_board) eq_refl)).
Defined.

(** ** What a view creation leaves behind *)

Section CreateView.
Context {W : Type} (B : Backend W).

(** Resolving a parent only ever looks things up. *)
Lemma resolveParentId_log (pt : string) (pid pname : option string) (s : St) :
  exists pre,
    log (snd (ViewTools.resolveParentId B pt pid pname s)) = log s ++ pre
    /\ quiet pre.
Proof.
  unfold ViewTools.resolveParentId, quiet.
  destruct (pt =? "team"); [exists []; simpl; now rewrite app_nil_r |].
  destruct (as_truthy pid); [exists []; simpl; now rewrite app_nil_r |].
  destruct (as_truthy pname) as [n |];
    [| exists []; simpl; now rewrite app_nil_r].
  destruct (pt =? "space").
  { exists [WsFindSpaceIDByName n]. unfold bind, call.
    destruct (findSpaceIDByName B n (world s)) as [[sid | e] w']; simpl;
      [destruct (as_truthy sid) |]; auto. }
  destruct (pt =? "folder").
  { exists [WsGetWorkspaceHierarchy]. unfold bind, call, sync.
    destruct (getWorkspaceHierarchy B (world s)) as [[h | e] w']; simpl;
      [destruct (findIDByNameInHierarchy B h n "folder") as [[info |] | e] |];
      auto. }
  destruct (pt =? "list").
  { exists [WsGetWorkspaceHierarchy]. unfold bind, call, sync.
    destruct (getWorkspaceHierarchy B (world s)) as [[h | e] w']; simpl;
      [destruct (findIDByNameInHierarchy B h n "list") as [[info |] | e] |];
      auto. }
  exists []. simpl. now rewrite app_nil_r.
Qed.

(** [createView] under a parent of one of the four kinds: one POST to the
    endpoint the parent's views are fetched from. *)
Lemma createView_run (data : CreateViewData) (endpoint msg : string) (s : St) :
  scope B (parent_type (cv_parent data)) (parent_id (cv_parent data))
  = Some (endpoint, msg) ->
  ViewService.createView B data s
  = match post_view B endpoint data (world s) with
    | (Returned v, w') =>
      (Returned v,
       {| world := w'; log := log s ++ [HttpPostView endpoint data] |})
    | (Thrown e, w') =>
      (Thrown (ViewService.handleError e (Some "Failed to create view")),
       {| world := w'; log := log s ++ [HttpPostView endpoint data] |})
    end.
Proof.
  unfold scope, ViewService.createView. intros Hscope.
  destruct (parent_type (cv_parent data) =? "team");
    [| destruct (parent_type (cv_parent data) =? "space");
       [| destruct (parent_type (cv_parent data) =? "folder");
          [| destruct (parent_type (cv_parent data) =? "list");
             [| discriminate]]]];
    injection Hscope as <- _;
    unfold try_catch, call, throw;
    destruct (post_view B _ data (world s)) as [[v | e] w']; reflexivity.
Qed.

End CreateView.






(** ** Creating a space *)

Section CreateSpace.
Context {W : Type} (B : Backend W).

Lemma name_not_set_when_different (reported : option string) (n : string) :
  reported <> Some n -> SpaceTools.name_not_set reported n = true.
Proof.
  intros Hdiff. unfold SpaceTools.name_not_set.
  destruct reported as [m |]; simpl.
  - destruct (m =? n) eqn:Hm.
    + apply String.eqb_eq in Hm. subst m. contradiction.
    + apply orb_true_r.
  - reflexivity.
Qed.

(** Each of the three triggers puts a key into the follow-up data. *)
Lemma followUpData_has_keys (n : string) (p : SpaceParams)
      (newSpace : ClickUpSpace) :
  truthy (color p) = true \/ isPrivate p <> None
  \/ space_name newSpace <> Some n ->
  Nat.ltb 0 (SpaceTools.update_keys (SpaceTools.followUpData B n p newSpace))
  = true.
Proof.
  intros Htrigger. apply Nat.ltb_lt.
  unfold SpaceTools.update_keys, SpaceTools.followUpData. simpl.
  destruct Htrigger as [Hcolor | [Hprivate | Hname]].
  - destruct (color p) as [[| c r] |]; try discriminate. simpl. lia.
  - destruct (isPrivate p); [simpl; lia | contradiction].
  - rewrite (name_not_set_when_different Hname). simpl. lia.
Qed.

End CreateSpace.

(** C9, as found: [create_space] with the colour supplied as the empty
    string, on a remote that echoes the requested name, sends the creation
    request and nothing else: no follow-up update. *)
Lemma handleCreateSpace_empty_color_no_update :
  color (Fixture.create_eng (Some EmptyString)) = Some EmptyString
  /\ log (snd (SpaceTools.handleCreateSpace Fixture.backend
                 (Fixture.create_eng (Some EmptyString)) (Fixture.start [])))
     = [WsCreateSpace Fixture.eng_data]
  /\ ~ exists id u,
         In (WsUpdateSpace id u)
            (log (snd (SpaceTools.handleCreateSpace Fixture.backend
                         (Fixture.create_eng (Some EmptyString))
                         (Fixture.start [])))).
Proof.
  split; [reflexivity |]. split; [reflexivity |].
  intros (id & u & Hin). vm_compute in Hin.
  destruct Hin as [Hev | []]. discriminate Hev.
Qed.

Section CreateSpaceRun.
Context {W : Type} (B : Backend W).

Lemma name_not_set_false (reported : option string) (c : ascii) (r : string) :
  reported = Some (String c r) ->
  SpaceTools.name_not_set reported (String c r) = false.
Proof.
  intros ->. unfold SpaceTools.name_not_set. now rewrite String.eqb_refl.
Qed.

Lemma followUpData_no_keys (c : ascii) (r : string) (p : SpaceParams)
      (newSpace : ClickUpSpace) :
  truthy (color p) = false ->
  isPrivate p = None ->
  space_name newSpace = Some (String c r) ->
  Nat.ltb 0 (SpaceTools.update_keys
               (SpaceTools.followUpData B (String c r) p newSpace)) = false.
Proof.
  intros Hcolor Hprivate Hname.
  unfold SpaceTools.followUpData, SpaceTools.update_keys. simpl.
  rewrite (name_not_set_false Hname), Hprivate.
  destruct (color p) as [[| c' r'] |]; try discriminate; reflexivity.
Qed.

(** The calls of [create_space], in order. *)
Lemma handleCreateSpace_calls (p : SpaceParams) (n : string) (s : St) :
  as_truthy (s_name p) = Some n ->
  let data := {| cs_name := n;
                 cs_multiple_assignees := multipleAssignees p;
                 cs_features := SpaceTools.convertFeaturesToAPI (features p) |} in
  exists rest,
    log (snd (SpaceTools.handleCreateSpace B p s))
    = log s ++ WsCreateSpace data :: rest
    /\ (forall newSpace w1,
           createSpace B data (world s) = (Returned newSpace, w1) ->
           truthy (color p) = true \/ isPrivate p <> None
           \/ space_name newSpace <> Some n ->
           exists u rest',
             rest = WsUpdateSpace (space_id newSpace) u :: rest'
             /\ (rest' = [] \/ exists id, rest' = [WsGetSpace id])).
Proof.
  intros Hname data.
  unfold SpaceTools.handleCreateSpace. rewrite Hname.
  unfold SpaceTools.buildSpaceData. fold data.
  unfold try_catch, bind, call, ret.
  destruct (createSpace B data (world s)) as [[newSpace | e] w1] eqn:Hcreate.
  2:{ exists []. simpl. split; [reflexivity |]. intros; discriminate. }
  set (u := SpaceTools.followUpData B n p newSpace).
  assert (Hsent : forall rest',
             rest' = [] \/ (exists id, rest' = [WsGetSpace id]) ->
             forall newSpace' w1',
               (Returned newSpace, w1) = (Returned newSpace', w1') ->
               truthy (color p) = true \/ isPrivate p <> None
               \/ space_name newSpace' <> Some n ->
               exists u0 rest0,
                 WsUpdateSpace (space_id newSpace) u :: rest'
                 = WsUpdateSpace (space_id newSpace') u0 :: rest0
                 /\ (rest0 = [] \/ exists id, rest0 = [WsGetSpace id])).
  { intros rest' Hrest newSpace' w1' Heq _. injection Heq as <- <-.
    exists u, rest'. now split. }
  destruct (Nat.ltb 0 (SpaceTools.update_keys u)) eqn:Hkeys.
  - simpl.
    destruct (updateSpace B (space_id newSpace) u w1)
      as [[updated | e] w2] eqn:Hupdate; simpl.
    + destruct (SpaceTools.name_not_set (space_name updated) n) eqn:Hset;
        simpl.
      * destruct (getSpace B (space_id updated) w2)
          as [[final | e] w3] eqn:Hget; simpl;
          (eexists; split; [repeat rewrite <- app_assoc; reflexivity |];
           apply Hsent; eauto).
      * eexists. split; [repeat rewrite <- app_assoc; reflexivity |].
        apply Hsent. now left.
    + eexists. split; [repeat rewrite <- app_assoc; reflexivity |].
      apply Hsent. now left.
  - simpl.
    assert (Hquiet : forall newSpace' w1',
               (Returned newSpace, w1) = (Returned newSpace', w1') ->
               truthy (color p) = true \/ isPrivate p <> None
               \/ space_name newSpace' <> Some n -> False).
    { intros newSpace' w1' Heq Htrigger. injection Heq as <- <-.
      pose proof (@followUpData_has_keys W B n p newSpace Htrigger) as Hyes.
      fold u in Hyes. congruence. }
    destruct (SpaceTools.name_not_set (space_name newSpace) n) eqn:Hset; simpl.
    + destruct (getSpace B (space_id newSpace) w1)
        as [[final | e] w3] eqn:Hget; simpl;
        (eexists; split; [repeat rewrite <- app_assoc; reflexivity |];
         intros newSpace' w1' Heq Htrigger; exfalso; eauto).
    + exists []. split; [reflexivity |].
      intros newSpace' w1' Heq Htrigger. exfalso. eauto.
Qed.

End CreateSpaceRun.

(** C9, amended: with a non-empty name, the first call of [create_space]
    is the creation, carrying the name, the multiple-assignees flag and the
    converted features and nothing else. When the creation succeeds and a
    non-empty colour or a privacy setting is supplied, or the reported name
    is not the requested one, the next call is an update of the new space's
    id, carrying the privacy setting, the colour and, when it was not
    reported, the name; it is followed by a get exactly when the update's
    answer does not report the requested name. A successful response
    describes the space as the last of these calls answered it (the get,
    else the update, else the creation), with the requested name in place
    of a missing one. *)
Theorem handleCreateSpace_follow_up
        (W : Type) (B : Backend W) (p : SpaceParams) (n : string) (s : St) :
  as_truthy (s_name p) = Some n ->
  let data := {| cs_name := n;
                 cs_multiple_assignees := multipleAssignees p;
                 cs_features := SpaceTools.convertFeaturesToAPI (features p) |} in
  let describes (r : CreateSpaceResult) (final : ClickUpSpace) :=
      csr_id r = space_id final
      /\ csr_name r = or_else (space_name final) n
      /\ (space_name final = None -> csr_name r = n)
      /\ csr_private r = space_private final
      /\ csr_features r = space_features final in
  exists rest,
    log (snd (SpaceTools.handleCreateSpace B p s))
    = log s ++ WsCreateSpace data :: rest
    /\ (forall newSpace w1,
           createSpace B data (world s) = (Returned newSpace, w1) ->
           truthy (color p) = true \/ isPrivate p <> None
           \/ space_name newSpace <> Some n ->
           exists u rest',
             rest = WsUpdateSpace (space_id newSpace) u :: rest'
             /\ (rest' = [] \/ exists id, rest' = [WsGetSpace id]))
    /\ (forall newSpace w1,
           createSpace B data (world s) = (Returned newSpace, w1) ->
           (truthy (color p) = false ->
            isPrivate p = None ->
            space_name newSpace = Some n ->
            exists r,
              SpaceTools.handleCreateSpace B p s
              = (Returned (createResponse r true),
                 {| world := w1; log := log s ++ [WsCreateSpace data] |})
              /\ describes r newSpace)
           /\ (truthy (color p) = true \/ isPrivate p <> None
               \/ space_name newSpace <> Some n ->
               exists u,
                 us_private u = isPrivate p
                 /\ us_color u
                    = match as_truthy (color p) with
                      | Some c =>
                        Some (match processColorCommand B c with
                              | Some colorResult => background colorResult
                              | None => c
                              end)
                      | None => None
                      end
                 /\ (space_name newSpace <> Some n -> us_name u = Some n)
                 /\ (space_name newSpace = Some n -> us_name u = None)
                 /\ us_admin_can_manage u = None
                 /\ us_multiple_assignees u = None
                 /\ us_features u = None
                 /\ forall updated w2,
                     updateSpace B (space_id newSpace) u w1
                     = (Returned updated, w2) ->
                     (space_name updated = Some n ->
                      exists r,
                        SpaceTools.handleCreateSpace B p s
                        = (Returned (createResponse r true),
                           {| world := w2;
                              log := log s
                                     ++ [WsCreateSpace data;
                                         WsUpdateSpace (space_id newSpace) u] |})
                        /\ describes r updated)
                     /\ (space_name updated <> Some n ->
                         forall final w3,
                           getSpace B (space_id updated) w2
                           = (Returned final, w3) ->
                           exists r,
                             SpaceTools.handleCreateSpace B p s
                             = (Returned (createResponse r true),
                                {| world := w3;
                                   log := log s
                                          ++ [WsCreateSpace data;
                                              WsUpdateSpace (space_id newSpace) u;
                                              WsGetSpace (space_id updated)] |})
                             /\ describes r final))).
Proof.
  intros Hname data describes.
  destruct (@handleCreateSpace_calls W B p n s Hname) as (rest & Hlog & Hupdate).
  exists rest. split; [exact Hlog |]. split; [exact Hupdate |].
  clear rest Hlog Hupdate.
  assert (Hn : exists c r, n = String c r).
  { destruct (s_name p) as [[| c r] |]; try discriminate.
    injection Hname as <-. eauto. }
  destruct Hn as (c & r & ->).
  assert (Hdescribes : forall final,
             describes
               {| csr_id := space_id final;
                  csr_name := or_else (space_name final) (String c r);
                  csr_private := space_private final;
                  csr_features := space_features final;
                  csr_url := SpaceTools.space_url B (space_id final);
                  csr_message :=
                    "Space " +++ dq +++ or_else (space_name final) (String c r)
                      +++ dq +++ " created successfully" |} final).
  { intros final. unfold describes. simpl. repeat split. now intros ->. }
  intros newSpace w1 Hcreate.
  unfold SpaceTools.handleCreateSpace. rewrite Hname.
  unfold SpaceTools.buildSpaceData. fold data.
  unfold try_catch, bind, call, ret. rewrite Hcreate.
  split.
  - intros Hcolor Hprivate Hreported.
    rewrite (@followUpData_no_keys W B c r p newSpace Hcolor Hprivate Hreported).
    rewrite (name_not_set_false Hreported).
    eexists. split; [reflexivity | apply Hdescribes].
  - intros Htrigger.
    exists (SpaceTools.followUpData B (String c r) p newSpace).
    split; [reflexivity |]. split; [reflexivity |].
    split; [intros Hdiff; unfold SpaceTools.followUpData; simpl;
            now rewrite (name_not_set_when_different Hdiff) |].
    split; [intros Hsame; unfold SpaceTools.followUpData; simpl;
            now rewrite (name_not_set_false Hsame) |].
    split; [reflexivity |]. split; [reflexivity |]. split; [reflexivity |].
    intros updated w2 Hupdate.
    rewrite (@followUpData_has_keys W B (String c r) p newSpace Htrigger).
    simpl. rewrite Hupdate. simpl. split.
    + intros Hsame. rewrite (name_not_set_false Hsame). simpl.
      eexists. split; [now rewrite <- app_assoc | apply Hdescribes].
    + intros Hdiff final w3 Hget.
      rewrite (name_not_set_when_different Hdiff). simpl.
      rewrite Hget. simpl.
      eexists. split; [now repeat rewrite <- app_assoc | apply Hdescribes].
Qed.

Lemma handleCreateSpace_follow_up_witness :
  (exists rest u rest',
      log (snd (SpaceTools.handleCreateSpace Fixture.backend
                  (Fixture.create_eng (Some "dark blue")) (Fixture.start [])))
      = log (Fixture.start []) ++ WsCreateSpace Fixture.eng_data :: rest
      /\ rest = WsUpdateSpace "s-new" u :: rest')
  /\ (exists r,
         fst (SpaceTools.handleCreateSpace Fixture.backend
                (Fixture.create_eng (Some "dark blue")) (Fixture.start []))
         = Returned (createResponse r true)
         /\ csr_id r = "s-new" /\ csr_name r = "Eng")
  /\ exists r,
      fst (SpaceTools.handleCreateSpace Fixture.backend
             (Fixture.create_eng None) (Fixture.start []))
      = Returned (createResponse r true)
      /\ csr_id r = "s-new" /\ csr_name r = "Eng".
Proof.
  destruct (@handleCreateSpace_follow_up
              Fixture.World Fixture.backend
              (Fixture.create_eng (Some "dark blue")) "Eng" (Fixture.start [])
              eq_refl)
    as (rest & Hlog & Hupdate & Hanswer).
  split; [| split].
  - destruct (Hupdate (Fixture.new_space Fixture.eng_data) _ eq_refl
                      (or_introl eq_refl))
      as (u & rest' & Hrest & _).
    exists rest, u, rest'. split; [exact Hlog | exact Hrest].
  - destruct (proj2 (Hanswer (Fixture.new_space Fixture.eng_data) _ eq_refl)
                    (or_introl eq_refl))
      as (u & _ & _ & _ & _ & _ & _ & _ & Hafter).
    destruct (proj1 (Hafter (Fixture.new_space Fixture.eng_data) _ eq_refl)
                    eq_refl)
      as (r & Hrun & Hid & Hname & _).
    exists r. split; [exact (f_equal fst Hrun) |].
    split; [exact Hid | exact Hname].
  - destruct (@handleCreateSpace_follow_up
                Fixture.World Fixture.backend (Fixture.create_eng None) "Eng"
                (Fixture.start []) eq_refl)
      as (_ & _ & _ & Hplain).
    destruct (proj1 (Hplain (Fixture.new_space Fixture.eng_data) _ eq_refl)
                    eq_refl eq_refl eq_refl)
      as (r & Hrun & Hid & Hname & _).
    exists r. split; [exact (f_equal fst Hrun) |].
    split; [exact Hid | exact Hname].
Defined.

(** ** An empty new name *)

Section EmptyName.
Context {W : Type} (B : Backend W).

Lemma resolveViewId_by_id (p : ViewParams) (id : string) (s : St) :
  as_truthy (viewId p) = Some id ->
  ViewTools.resolveViewId B p s = (Returned id, s).
Proof.
  intros Hid. unfold ViewTools.resolveViewId, bind, ret.
  destruct (viewId p) as [[| c r] |]; try discriminate.
  injection Hid as <-. simpl.
  destruct (as_truthy (viewName p)), (as_truthy (parentType p)); reflexivity.
Qed.

End EmptyName.

(** C10, as found: beside an empty new name a supplied field can be left
    out of the request. [update_view] with a direction but no field
    to group by sends no grouping, and [update_space] with an empty colour
    and a features object without entries sends neither. *)
Lemma empty_name_update_drops_supplied_fields :
  groupDirection Cases.redirect_v1 = Some (-1)%Z
  /\ snd (ViewTools.handleUpdateView Fixture.backend Cases.redirect_v1
            (Fixture.start Fixture.one_board))
     = {| world := snd (put_view Fixture.backend "/view/v1"
                          {| uv_name := None; uv_grouping := None;
                             uv_filters := None; uv_columns := None;
                             uv_settings := None |}
                          (world (Fixture.start Fixture.one_board)));
          log := [HttpPutView "/view/v1"
                    {| uv_name := None; uv_grouping := None;
                       uv_filters := None; uv_columns := None;
                       uv_settings := None |}] |}
  /\ color Cases.recolour_s1 = Some EmptyString
  /\ features Cases.recolour_s1 <> None
  /\ snd (SpaceTools.handleUpdateSpace Fixture.backend Cases.recolour_s1
            (Fixture.start []))
     = {| world := snd (updateSpace Fixture.backend "s1"
                          {| us_name := None; us_color := None;
                             us_private := None; us_admin_can_manage := None;
                             us_multiple_assignees := None;
                             us_features := None |}
                          (world (Fixture.start [])));
          log := [WsUpdateSpace "s1"
                    {| us_name := None; us_color := None; us_private := None;
                       us_admin_can_manage := None;
                       us_multiple_assignees := None;
                       us_features := None |}] |}.
Proof.
  split; [reflexivity |]. split; [reflexivity |]. split; [reflexivity |].
  split; [discriminate | reflexivity].
Qed.

(** C10, amended: in [update_view] and [update_space] a new name equal to
    the empty string makes the handler run exactly as it does without a
    name. With the target given by id, one request leaves, for that id, and
    it carries no name. Of the other parameters of [update_view] it carries
    the columns as given, the filters with a missing or empty operator read
    as AND and missing conditions as none, the five settings as given, and
    a grouping only for a non-empty field to group by, with direction 1
    when none or 0 is given; a direction without such a field is left out.
    Of the other parameters of [update_space] it carries the privacy, the
    admin and the multiple-assignees settings as given, a non-empty colour
    as the colour command reads it, the colour itself when the command does
    not read it, and the features only when at least one is given; an empty
    colour and a features object without entries are left out. *)
Theorem empty_name_treated_as_absent
        (W : Type) (B : Backend W) (p : ViewParams) (sp : SpaceParams) (s : St) :
  let pv := view_with_name p (Some EmptyString) in
  let ps := space_with_name sp (Some EmptyString) in
  let viewData :=
      {| uv_name := None;
         uv_grouping :=
           match groupBy p with
           | Some (String c r) =>
             Some {| grouping_field := String c r;
                     grouping_dir := match groupDirection p with
                                     | Some 0%Z => 1%Z
                                     | Some d => d
                                     | None => 1%Z
                                     end |}
           | _ => None
           end;
         uv_filters :=
           match filters p with
           | Some f =>
             Some {| filters_op := match f_operator f with
                                   | Some (String c r) => String c r
                                   | _ => "AND"
                                   end;
                     filters_filters :=
                       match f_conditions f with
                       | Some cs =>
                         map (fun c => {| cond_field := c_field c;
                                          cond_op := c_operator c;
                                          cond_value := c_value c |}) cs
                       | None => []
                       end |}
           | None => None
           end;
         uv_columns := columns p;
         uv_settings :=
           match settings p with
           | Some st =>
             Some {| show_task_locations := showTaskLocations st;
                     show_subtasks := showSubtasks st;
                     show_assignees := showAssignees st;
                     show_images := showImages st;
                     me_mode := meMode st |}
           | None => None
           end |} in
  let spaceData :=
      {| us_name := None;
         us_color :=
           match color sp with
           | Some (String c r) =>
             Some (match processColorCommand B (String c r) with
                   | Some colorResult => background colorResult
                   | None => String c r
                   end)
           | _ => None
           end;
         us_private := isPrivate sp;
         us_admin_can_manage := adminCanManage sp;
         us_multiple_assignees := multipleAssignees sp;
         us_features :=
           match features sp with
           | Some f =>
             match dueDates f, timeTracking f, f_tags f, timeEstimates f,
                   f_checklists f, customFields f, remapDependencies f,
                   dependencyWarning f, f_portfolios f with
             | None, None, None, None, None, None, None, None, None => None
             | _, _, _, _, _, _, _, _, _ =>
               Some {| due_dates :=
                         match dueDates f with
                         | Some d =>
                           Some {| dd_enabled := dueDates_enabled d;
                                   dd_start_date := startDate d;
                                   dd_remap_due_dates := remapDueDates d;
                                   dd_remap_closed_due_date :=
                                     remapClosedDueDate d |}
                         | None => None
                         end;
                       time_tracking := timeTracking f;
                       tags := f_tags f;
                       time_estimates := timeEstimates f;
                       checklists := f_checklists f;
                       custom_fields := customFields f;
                       remap_dependencies := remapDependencies f;
                       dependency_warning := dependencyWarning f;
                       portfolios := f_portfolios f |}
             end
           | None => None
           end |} in
  ViewTools.handleUpdateView B pv s
  = ViewTools.handleUpdateView B (view_with_name p None) s
  /\ (forall id,
         as_truthy (viewId p) = Some id ->
         snd (ViewTools.handleUpdateView B pv s)
         = {| world := snd (put_view B ("/view/" +++ id) viewData (world s));
              log := log s ++ [HttpPutView ("/view/" +++ id) viewData] |}
         /\ forall v w',
             put_view B ("/view/" +++ id) viewData (world s)
             = (Returned v, w') ->
             fst (ViewTools.handleUpdateView B pv s)
             = Returned
                 (createResponse
                    {| uvr_id := view_id v;
                       uvr_name := view_name v;
                       uvr_type := view_type v;
                       uvr_message := "View " +++ dq +++ view_name v +++ dq
                                        +++ " updated successfully" |} true))
  /\ SpaceTools.handleUpdateSpace B ps s
     = SpaceTools.handleUpdateSpace B (space_with_name sp None) s
  /\ (forall id,
         as_truthy (spaceId sp) = Some id ->
         snd (SpaceTools.handleUpdateSpace B ps s)
         = {| world := snd (updateSpace B id spaceData (world s));
              log := log s ++ [WsUpdateSpace id spaceData] |}
         /\ forall u w',
             updateSpace B id spaceData (world s) = (Returned u, w') ->
             fst (SpaceTools.handleUpdateSpace B ps s)
             = Returned
                 (createResponse
                    {| usr_id := space_id u;
                       usr_name := space_name u;
                       usr_private := space_private u;
                       usr_message :=
                         "Space " +++ dq +++ template (space_name u)
                           +++ dq +++ " updated successfully" |} true)).
Proof.
  intros pv ps viewData spaceData.
  assert (Hview : ViewTools.buildUpdateData pv = viewData).
  { unfold ViewTools.buildUpdateData, viewData, ViewTools.grouping_of,
      ViewTools.filters_of, ViewTools.settings_of, ViewTools.dir_or_1.
    simpl. f_equal.
    destruct (groupBy p) as [[| c r] |]; reflexivity. }
  assert (Hspace : SpaceTools.buildUpdateData B ps = spaceData).
  { unfold SpaceTools.buildUpdateData, spaceData, SpaceTools.colorHex. simpl.
    f_equal.
    - destruct (color sp) as [[| c r] |]; reflexivity.
    - unfold SpaceTools.convertFeaturesToAPI.
      destruct (features sp) as [f |]; [| reflexivity].
      unfold SpaceTools.feature_keys.
      destruct (dueDates f), (timeTracking f), (f_tags f), (timeEstimates f),
        (f_checklists f), (customFields f), (remapDependencies f),
        (dependencyWarning f), (f_portfolios f); reflexivity. }
  split; [reflexivity |]. split.
  { intros id Hid. unfold ViewTools.handleUpdateView, try_catch, bind.
    rewrite (resolveViewId_by_id B pv s (id := id)) by exact Hid.
    rewrite Hview.
    unfold ViewService.updateView, try_catch, call, throw, ret.
    destruct (put_view B ("/view/" +++ id) viewData (world s))
      as [[v | e] w'] eqn:Hput; simpl.
    - split; [reflexivity |]. intros v0 w0 Heq. now injection Heq as <- <-.
    - split; [reflexivity |]. intros; discriminate. }
  split; [reflexivity |].
  intros id Hid. unfold SpaceTools.handleUpdateSpace, try_catch, bind, ret.
  rewrite Hspace.
  change (spaceId ps) with (spaceId sp).
  change (spaceName ps) with (spaceName sp).
  destruct (spaceId sp) as [[| c r] |]; try discriminate.
  injection Hid as <-. simpl.
  destruct (as_truthy (spaceName sp)); simpl; unfold call;
    destruct (updateSpace B (String c r) spaceData (world s))
      as [[u | e] w'] eqn:Hput; simpl;
      (split; [reflexivity |]; intros u0 w0 Heq;
       try discriminate; now injection Heq as <- <-).
Qed.

Lemma empty_name_treated_as_absent_witness :
  snd (ViewTools.handleUpdateView Fixture.backend Fixture.regroup_v1
         (Fixture.start Fixture.one_board))
  = {| world := snd (put_view Fixture.backend "/view/v1"
                       {| uv_name := None;
                          uv_grouping := Some {| grouping_field := "status";
                                                 grouping_dir := 1 |};
                          uv_filters := None; uv_columns := None;
                          uv_settings := None |}
                       (world (Fixture.start Fixture.one_board)));
       log := [HttpPutView "/view/v1"
                 {| uv_name := None;
                    uv_grouping := Some {| grouping_field := "status";
                                           grouping_dir := 1 |};
                    uv_filters := None; uv_columns := None;
                    uv_settings := None |}] |}
  /\ log (snd (SpaceTools.handleUpdateSpace Fixture.backend
                 Fixture.make_private_s1 (Fixture.start [])))
     = [WsUpdateSpace "s1"
          {| us_name := None; us_color := None; us_private := Some true;
             us_admin_can_manage := None; us_multiple_assignees := None;
             us_features := None |}].
Proof.
  pose proof (@empty_name_treated_as_absent
                Fixture.World Fixture.backend Fixture.regroup_v1
                Fixture.make_private_s1 (Fixture.start Fixture.one_board))
    as (_ & Hview & _ & _).
  pose proof (@empty_name_treated_as_absent
                Fixture.World Fixture.backend Fixture.regroup_v1
                Fixture.make_private_s1 (Fixture.start []))
    as (_ & _ & _ & Hspace).
  split.
  - exact (proj1 (Hview "v1" eq_refl)).
  - exact (f_equal log (proj1 (Hspace "s1" eq_refl))).
Defined.

(** * Further properties of the service and of the handlers *)

(** ** What the view service sends and throws *)

Section ServiceMethods.
Context {W : Type} (B : Backend W).

Lemma wrapped_is_service_error (e : JsError) (msg : string) :
  instanceofClickUpServiceError (wrapped e msg) = true.
Proof. destruct e; reflexivity. Qed.

Lemma handleError_wrapped (e : JsError) (msg : string) :
  msg <> EmptyString ->
  ViewService.handleError e (Some msg) = wrapped e msg.
Proof.
  intros Hmsg. unfold ViewService.handleError, wrapped.
  destruct e as [m | m c d]; simpl; [| reflexivity].
  destruct msg; [contradiction | reflexivity].
Qed.

(** A method that wraps one call of the client in [try]/[catch]. *)
Lemma forwarded_call {A} (ev : Event) (op : W -> Completion A * W)
      (msg : string) (s : St) :
  msg <> EmptyString ->
  try_catch (call ev op)
            (fun error => throw (ViewService.handleError error (Some msg))) s
  = (forwarded (fst (op (world s))) msg,
     {| world := snd (op (world s)); log := log s ++ [ev] |}).
Proof.
  intros Hmsg. unfold try_catch, call, throw, forwarded.
  destruct (op (world s)) as [[a | e] w']; simpl; [reflexivity |].
  now rewrite handleError_wrapped.
Qed.

Lemma forwarded_thrown {A} (r : Completion A) (msg : string) (e : JsError) :
  forwarded r msg = Thrown e -> instanceofClickUpServiceError e = true.
Proof.
  destruct r as [a | e0]; simpl; [discriminate |].
  intros H. injection H as <-. apply wrapped_is_service_error.
Qed.

End ServiceMethods.

Ltac nonempty_message := let H := fresh in intros H; simpl in H; discriminate H.

(** X1: [getView], [updateView] and [deleteView] each send exactly one
    request, to [/view/<id>]; they return the remote's answer unchanged,
    rethrow a service error of the remote unchanged, and wrap a plain error
    in a service error with code UNKNOWN, the method's own message and the
    original error attached. *)
Theorem by_id_methods_forward_one_request
        (W : Type) (B : Backend W) (id : string) (u : UpdateViewData) (s : St) :
  ViewService.getView B id s
  = (forwarded (fst (get_view B ("/view/" +++ id) (world s)))
               ("Failed to get view " +++ id),
     {| world := snd (get_view B ("/view/" +++ id) (world s));
        log := log s ++ [HttpGetView ("/view/" +++ id)] |})
  /\ ViewService.updateView B id u s
     = (forwarded (fst (put_view B ("/view/" +++ id) u (world s)))
                  ("Failed to update view " +++ id),
        {| world := snd (put_view B ("/view/" +++ id) u (world s));
           log := log s ++ [HttpPutView ("/view/" +++ id) u] |})
  /\ ViewService.deleteView B id s
     = (forwarded (fst (http_delete B ("/view/" +++ id) (world s)))
                  ("Failed to delete view " +++ id),
        {| world := snd (http_delete B ("/view/" +++ id) (world s));
           log := log s ++ [HttpDelete ("/view/" +++ id)] |}).
Proof.
  unfold ViewService.getView, ViewService.updateView, ViewService.deleteView.
  repeat split; apply forwarded_call; nonempty_message.
Qed.

(** X2: whatever the remote does and whatever the arguments are, an error
    thrown by a method of the view service is a [ClickUpServiceError]. *)
Theorem view_service_throws_only_service_errors
        (W : Type) (B : Backend W) (s : St) (e : JsError) :
  (forall data, fst (ViewService.createView B data s) = Thrown e ->
                instanceofClickUpServiceError e = true)
  /\ (forall id, fst (ViewService.getView B id s) = Thrown e ->
                 instanceofClickUpServiceError e = true)
  /\ (fst (ViewService.getWorkspaceViews B s) = Thrown e ->
      instanceofClickUpServiceError e = true)
  /\ (forall id, fst (ViewService.getSpaceViews B id s) = Thrown e ->
                 instanceofClickUpServiceError e = true)
  /\ (forall id, fst (ViewService.getFolderViews B id s) = Thrown e ->
                 instanceofClickUpServiceError e = true)
  /\ (forall id, fst (ViewService.getListViews B id s) = Thrown e ->
                 instanceofClickUpServiceError e = true)
  /\ (forall id u, fst (ViewService.updateView B id u s) = Thrown e ->
                   instanceofClickUpServiceError e = true)
  /\ (forall id, fst (ViewService.deleteView B id s) = Thrown e ->
                 instanceofClickUpServiceError e = true)
  /\ (forall pid pt q,
         fst (ViewService.findViewByName B pid pt q s) = Thrown e ->
         instanceofClickUpServiceError e = true).
Proof.
  assert (Hone : forall A ev (op : W -> Completion A * W) msg,
             msg <> EmptyString ->
             fst (try_catch (call ev op)
                    (fun error =>
                       throw (ViewService.handleError error (Some msg))) s)
             = Thrown e ->
             instanceofClickUpServiceError e = true).
  { intros A ev op msg Hmsg. rewrite forwarded_call by exact Hmsg. simpl.
    apply forwarded_thrown. }
  repeat split.
  - intros data. unfold ViewService.createView.
    destruct (parent_type (cv_parent data) =? "team");
      [| destruct (parent_type (cv_parent data) =? "space");
         [| destruct (parent_type (cv_parent data) =? "folder");
            [| destruct (parent_type (cv_parent data) =? "list")]]];
      apply Hone; discriminate.
  - intros id. apply Hone. nonempty_message.
  - apply Hone. discriminate.
  - intros id. apply Hone. discriminate.
  - intros id. apply Hone. discriminate.
  - intros id. apply Hone. discriminate.
  - intros id u. apply Hone. nonempty_message.
  - intros id. apply Hone. nonempty_message.
  - intros pid pt q.
    destruct (scope B pt pid) as [[endpoint msg] |] eqn:Hscope.
    + erewrite findViewByName_run by exact Hscope.
      destruct (get_views B endpoint (world s)) as [[views | e0] w'];
        simpl; [discriminate |].
      intros H. injection H as <-. apply handleError_is_service_error.
    + rewrite findViewByName_invalid by exact Hscope. simpl.
      intros H. injection H as <-. reflexivity.
Qed.

Lemma view_service_throws_only_service_errors_witness :
  instanceofClickUpServiceError Fixture.unreachable = true.
Proof.
  exact (proj1 (proj2 (@view_service_throws_only_service_errors
                         Fixture.World Fixture.backend Fixture.start_offline
                         Fixture.unreachable))
               "v1" eq_refl).
Defined.

(** X3: [createView] sends a POST exactly when the parent type is one of
    team, space, folder and list, and then one POST to the endpoint the
    parent's views are read from; with any other parent type nothing is
    posted and the only thing handed to the request layer is the
    invalid-parent-type error. *)
Theorem createView_posts_iff_parent_type_known
        (W : Type) (B : Backend W) (data : CreateViewData) (s : St) :
  match scope B (parent_type (cv_parent data)) (parent_id (cv_parent data)) with
  | Some (endpoint, _) =>
    log (snd (ViewService.createView B data s))
    = log s ++ [HttpPostView endpoint data]
  | None =>
    log (snd (ViewService.createView B data s))
    = log s ++ [RequestNotSent
                  (ClickUpServiceError
                     ("Invalid parent type: " +++ parent_type (cv_parent data))
                     INVALID_PARAMETER None)]
  end.
Proof.
  unfold scope, ViewService.createView.
  destruct (parent_type (cv_parent data) =? "team");
    [| destruct (parent_type (cv_parent data) =? "space");
       [| destruct (parent_type (cv_parent data) =? "folder");
          [| destruct (parent_type (cv_parent data) =? "list")]]];
    rewrite forwarded_call by discriminate; reflexivity.
Qed.

(** X4: for the parent type team the parent id plays no part: the views
    are read from, and a view is posted to, the endpoint of the team the
    service was constructed with. *)
Theorem team_parent_id_is_ignored
        (W : Type) (B : Backend W) (pid pid' q : string)
        (data : CreateViewData) (s : St) :
  ViewService.findViewByName B pid "team" q s
  = ViewService.findViewByName B pid' "team" q s
  /\ log (snd (ViewService.findViewByName B pid "team" q s))
     = log s ++ [HttpGetViews ("/team/" +++ teamId B +++ "/view")]
  /\ (parent_type (cv_parent data) = "team" ->
      log (snd (ViewService.createView B data s))
      = log s ++ [HttpPostView ("/team/" +++ teamId B +++ "/view") data]).
Proof.
  split; [reflexivity |]. split.
  - apply (findViewByName_log B pid "team" q s (msg := "Failed to get workspace views")).
    reflexivity.
  - intros Hteam. unfold ViewService.createView. rewrite Hteam. simpl.
    rewrite forwarded_call by discriminate. reflexivity.
Qed.

Lemma team_parent_id_is_ignored_witness :
  log (snd (ViewService.createView Fixture.backend
              {| cv_name := "Roadmap"; cv_type := "list";
                 cv_parent := {| parent_id := "ignored";
                                 parent_type := "team" |};
                 cv_grouping := None; cv_filters := None; cv_columns := None;
                 cv_settings := None |} (Fixture.start [])))
  = [HttpPostView "/team/9001/view"
       {| cv_name := "Roadmap"; cv_type := "list";
          cv_parent := {| parent_id := "ignored"; parent_type := "team" |};
          cv_grouping := None; cv_filters := None; cv_columns := None;
          cv_settings := None |}].
Proof.
  exact (proj2 (proj2 (@team_parent_id_is_ignored
                         Fixture.World Fixture.backend "a" "b" "q"
                         {| cv_name := "Roadmap"; cv_type := "list";
                            cv_parent := {| parent_id := "ignored";
                                            parent_type := "team" |};
                            cv_grouping := None; cv_filters := None;
                            cv_columns := None; cv_settings := None |}
                         (Fixture.start []))) eq_refl).
Defined.

(** ** Parent resolution: calls and outcomes *)

(** X5: resolving a parent never mutates the remote and makes at most one
    call; it makes none for the parent type team, when a non-empty parent
    id is given, when no parent name is given, and for a parent type other
    than space, folder and list. *)
Theorem resolveParentId_looks_up_at_most_once
        (W : Type) (B : Backend W) (pt : string)
        (pid pname : option string) (s : St) :
  exists pre,
    log (snd (ViewTools.resolveParentId B pt pid pname s)) = log s ++ pre
    /\ quiet pre
    /\ length pre <= 1
    /\ (pre <> [] ->
        truthy pid = false /\ truthy pname = true
        /\ In pt ["space"; "folder"; "list"]).
Proof.
  unfold ViewTools.resolveParentId, quiet.
  assert (Hnone : forall (r : Completion string),
             exists pre : list Event,
               log s = log s ++ pre
               /\ forallb (fun ev => negb (is_mutation ev)) pre = true
               /\ length pre <= 1
               /\ (pre <> [] ->
                   truthy pid = false /\ truthy pname = true
                   /\ In pt ["space"; "folder"; "list"])).
  { intros _. exists []. split; [now rewrite app_nil_r |].
    split; [reflexivity |]. split; [simpl; lia |].
    intros Hpre. now contradiction Hpre. }
  destruct (pt =? "team") eqn:Hteam; [apply (Hnone (Returned EmptyString)) |].
  destruct pid as [[| c r] |]; simpl;
    try (apply (Hnone (Returned EmptyString)));
    (destruct pname as [[| c' r'] |]; simpl;
     try (apply (Hnone (Returned EmptyString)))).
  all: destruct (pt =? "space") eqn:Hspace;
    [ apply String.eqb_eq in Hspace; subst pt;
      exists [WsFindSpaceIDByName (String c' r')]; unfold bind, call;
      destruct (findSpaceIDByName B (String c' r') (world s))
        as [[[[| c2 r2] |] | e] w']; simpl; repeat split; auto
    | destruct (pt =? "folder") eqn:Hfolder;
      [ apply String.eqb_eq in Hfolder; subst pt;
        exists [WsGetWorkspaceHierarchy]; unfold bind, call, sync;
        destruct (getWorkspaceHierarchy B (world s)) as [[h | e] w']; simpl;
        [ destruct (findIDByNameInHierarchy B h (String c' r') "folder")
            as [[info |] | e] |]; simpl; repeat split; auto
      | destruct (pt =? "list") eqn:Hlist;
        [ apply String.eqb_eq in Hlist; subst pt;
          exists [WsGetWorkspaceHierarchy]; unfold bind, call, sync;
          destruct (getWorkspaceHierarchy B (world s)) as [[h | e] w']; simpl;
          [ destruct (findIDByNameInHierarchy B h (String c' r') "list")
              as [[info |] | e] |]; simpl; repeat split; auto
        | apply (Hnone (Returned EmptyString)) ] ] ].
Qed.

Lemma resolveParentId_looks_up_at_most_once_witness :
  log (snd (ViewTools.resolveParentId Fixture.backend "folder" None
              (Some "Sprint 23") Fixture.start_with_folder))
  = [WsGetWorkspaceHierarchy]
  /\ truthy None = false /\ truthy (Some "Sprint 23") = true
  /\ In "folder" ["space"; "folder"; "list"].
Proof.
  split; [reflexivity |].
  destruct (@resolveParentId_looks_up_at_most_once
              Fixture.World Fixture.backend "folder" None (Some "Sprint 23")
              Fixture.start_with_folder)
    as (pre & Hlog & _ & _ & Hcalled).
  apply Hcalled. intros ->. discriminate Hlog.
Defined.

(** X6: a parent given by name only. A space is looked up with
    [findSpaceIDByName], and a missing or empty id is the not-found error;
    a list is looked up in the workspace hierarchy like a folder; any
    other parent type than team, space, folder and list is rejected as
    invalid without a lookup. *)
Theorem resolveParentId_by_name
        (W : Type) (B : Backend W) (pt : string) (c : ascii) (r : string)
        (s : St) :
  let n := String c r in
  (pt = "space" ->
   ViewTools.resolveParentId B pt None (Some n) s
   = (match fst (findSpaceIDByName B n (world s)) with
      | Returned (Some (String c' r')) => Returned (String c' r')
      | Returned _ => Thrown (Error (notFoundMessage "Space" n))
      | Thrown e => Thrown e
      end,
      {| world := snd (findSpaceIDByName B n (world s));
         log := log s ++ [WsFindSpaceIDByName n] |}))
  /\ (pt = "list" ->
      ViewTools.resolveParentId B pt None (Some n) s
      = (match fst (getWorkspaceHierarchy B (world s)) with
         | Returned hierarchy =>
           match findIDByNameInHierarchy B hierarchy n "list" with
           | Returned (Some listInfo) => Returned (info_id listInfo)
           | Returned None => Thrown (Error (notFoundMessage "List" n))
           | Thrown e => Thrown e
           end
         | Thrown e => Thrown e
         end,
         {| world := snd (getWorkspaceHierarchy B (world s));
            log := log s ++ [WsGetWorkspaceHierarchy] |}))
  /\ (~ In pt parentTypes ->
      ViewTools.resolveParentId B pt None (Some n) s
      = (Thrown (Error ("Invalid parent type: " +++ pt)), s)).
Proof.
  intros n. subst n. repeat split.
  - intros ->. unfold ViewTools.resolveParentId. simpl. unfold bind, call.
    destruct (findSpaceIDByName B (String c r) (world s))
      as [[[[| c' r'] |] | e] w']; reflexivity.
  - intros ->. unfold ViewTools.resolveParentId. simpl.
    unfold bind, call, sync.
    destruct (getWorkspaceHierarchy B (world s)) as [[h | e] w']; simpl;
      [| reflexivity].
    destruct (findIDByNameInHierarchy B h (String c r) "list")
      as [[info |] | e]; reflexivity.
  - intros Hpt. unfold ViewTools.resolveParentId. simpl.
    unfold parentTypes in Hpt. simpl in Hpt.
    destruct (pt =? "team") eqn:H1;
      [apply String.eqb_eq in H1; exfalso; apply Hpt; auto |].
    destruct (pt =? "space") eqn:H2;
      [apply String.eqb_eq in H2; exfalso; apply Hpt; auto |].
    destruct (pt =? "folder") eqn:H3;
      [apply String.eqb_eq in H3; exfalso; apply Hpt; auto |].
    destruct (pt =? "list") eqn:H4;
      [apply String.eqb_eq in H4; exfalso; apply Hpt; auto 6 |].
    reflexivity.
Qed.

Lemma resolveParentId_by_name_witness :
  ViewTools.resolveParentId Fixture.backend "space" None (Some "Eng")
                            Cases.start_with_eng
  = (Returned "s1",
     {| world := world Cases.start_with_eng;
        log := [WsFindSpaceIDByName "Eng"] |})
  /\ ViewTools.resolveParentId Fixture.backend "list" None (Some "Backlog")
                               (Fixture.start [])
     = (Thrown (Error (notFoundMessage "List" "Backlog")),
        {| world := world (Fixture.start []);
           log := [WsGetWorkspaceHierarchy] |})
  /\ ViewTools.resolveParentId Fixture.backend "board" None (Some "Eng")
                               (Fixture.start [])
     = (Thrown (Error "Invalid parent type: board"), Fixture.start []).
Proof.
  split; [| split].
  - exact (proj1 (@resolveParentId_by_name Fixture.World Fixture.backend
                    "space" "E"%char "ng" Cases.start_with_eng) eq_refl).
  - exact (proj1 (proj2 (@resolveParentId_by_name Fixture.World Fixture.backend
                    "list" "B"%char "acklog" (Fixture.start []))) eq_refl).
  - refine (proj2 (proj2 (@resolveParentId_by_name Fixture.World Fixture.backend
                    "board" "E"%char "ng" (Fixture.start []))) _).
    unfold parentTypes. simpl.
    intros [H | [H | [H | [H | []]]]]; discriminate H.
Defined.

(** ** Creating a view *)

Section LookupLogs.
Context {W : Type} (B : Backend W).

Lemma quiet_app (a b : list Event) : quiet a -> quiet b -> quiet (a ++ b).
Proof.
  unfold quiet. intros Ha Hb. rewrite forallb_app, Ha, Hb. reflexivity.
Qed.

Lemma findViewByName_quiet (pid pt q : string) (s : St) :
  exists pre,
    log (snd (ViewService.findViewByName B pid pt q s)) = log s ++ pre
    /\ quiet pre.
Proof.
  destruct (scope B pt pid) as [[endpoint msg] |] eqn:Hscope.
  - exists [HttpGetViews endpoint]. split; [| reflexivity].
    now apply findViewByName_log with (msg := msg).
  - exists []. rewrite findViewByName_invalid by exact Hscope.
    simpl. now rewrite app_nil_r.
Qed.

Lemma lookupView_log (q pt : string) (pid pname : option string) (s : St) :
  exists pre,
    log (snd (ViewTools.lookupView B q pt pid pname s)) = log s ++ pre
    /\ quiet pre.
Proof.
  rewrite lookupView_run.
  destruct (resolveParentId_log B pt pid pname s) as (pre & Hpre & Hquiet).
  destruct (ViewTools.resolveParentId B pt pid pname s) as [[rid | e] s1];
    simpl in Hpre; [| exists pre; now split].
  destruct (findViewByName_quiet rid pt q s1) as (pre' & Hpre' & Hquiet').
  destruct (ViewService.findViewByName B rid pt q s1) as [[[view |] | e] s2];
    simpl in *; exists (pre ++ pre');
    (split; [now rewrite Hpre', Hpre, app_assoc | now apply quiet_app]).
Qed.

Lemma final_check_log (m : M (W := W) (option string)) (msg : string)
      (s : St) :
  (exists pre, log (snd (m s)) = log s ++ pre /\ quiet pre) ->
  exists pre,
    log (snd (bind m (fun target =>
                        match as_truthy target with
                        | None => throw (Error msg)
                        | Some target => ret target
                        end) s))
    = log s ++ pre /\ quiet pre.
Proof.
  intros (pre & Hpre & Hquiet). exists pre. unfold bind, throw, ret.
  destruct (m s) as [[target | e] s1]; simpl in *;
    [destruct (as_truthy target); simpl |]; now split.
Qed.

Lemma resolveViewId_log (p : ViewParams) (s : St) :
  exists pre,
    log (snd (ViewTools.resolveViewId B p s)) = log s ++ pre /\ quiet pre.
Proof.
  unfold ViewTools.resolveViewId. apply final_check_log.
  assert (Hhere : exists pre,
             log (snd (ret (viewId p) s)) = log s ++ pre /\ quiet pre).
  { exists []. simpl. now rewrite app_nil_r. }
  destruct (as_truthy (viewId p)); [exact Hhere |].
  destruct (as_truthy (viewName p)) as [q |]; [| exact Hhere].
  destruct (as_truthy (parentType p)) as [pt |]; [| exact Hhere].
  destruct (lookupView_log q pt (parentId p) (parentName p) s)
    as (pre & Hpre & Hquiet).
  exists pre. unfold bind, ret.
  destruct (ViewTools.lookupView B q pt (parentId p) (parentName p) s)
    as [[view | e] s1]; simpl in *; now split.
Qed.

End LookupLogs.

(** X7: [create_view] without a non-empty name, type or parent type throws
    the validation error at once: nothing is resolved or sent. *)
Theorem handleCreateView_requires_name_type_parentType
        (W : Type) (B : Backend W) (p : ViewParams) (s : St) :
  truthy (name p) = false \/ truthy (type p) = false
  \/ truthy (parentType p) = false ->
  ViewTools.handleCreateView B p s
  = (Thrown (Error "name, type, and parentType are required"), s).
Proof.
  unfold ViewTools.handleCreateView.
  destruct (name p) as [[| c1 r1] |], (type p) as [[| c2 r2] |],
    (parentType p) as [[| c3 r3] |]; simpl;
    intros [H | [H | H]]; try discriminate H; reflexivity.
Qed.

Lemma handleCreateView_requires_name_type_parentType_witness :
  ViewTools.handleCreateView Fixture.backend Cases.create_without_type
                             (Fixture.start [])
  = (Thrown (Error "name, type, and parentType are required"),
     Fixture.start []).
Proof.
  apply (@handleCreateView_requires_name_type_parentType
           Fixture.World Fixture.backend Cases.create_without_type
           (Fixture.start [])).
  right. left. reflexivity.
Defined.

(** X8: once the parent of a [create_view] is resolved, the handler sends
    one POST to that parent's view endpoint; its body names the given name
    and type and the resolved parent. A failed creation is answered with
    the error response carrying the service error's message. *)
Theorem handleCreateView_posts_to_resolved_parent
        (W : Type) (B : Backend W) (p : ViewParams) (n t pt rid : string)
        (s s0 : St) :
  as_truthy (name p) = Some n ->
  as_truthy (type p) = Some t ->
  as_truthy (parentType p) = Some pt ->
  In pt parentTypes ->
  ViewTools.resolveParentId B pt (parentId p) (parentName p) s
  = (Returned rid, s0) ->
  exists endpoint msg body,
    scope B pt rid = Some (endpoint, msg)
    /\ cv_name body = n /\ cv_type body = t
    /\ cv_parent body = {| parent_id := rid; parent_type := pt |}
    /\ log (snd (ViewTools.handleCreateView B p s))
       = log s0 ++ [HttpPostView endpoint body]
    /\ (forall e w1,
           post_view B endpoint body (world s0) = (Thrown e, w1) ->
           fst (ViewTools.handleCreateView B p s)
           = Returned (createErrorResponse
                         ("Failed to create view: "
                            +++ message (wrapped e "Failed to create view"))))
    /\ (forall v w1,
           post_view B endpoint body (world s0) = (Returned v, w1) ->
           succeeded (fst (ViewTools.handleCreateView B p s))).
Proof.
  intros Hn Ht Hpt Hvalid Hres.
  destruct (@scope_of_parentTypes W B pt rid Hvalid) as (endpoint & msg & Hscope).
  unfold ViewTools.handleCreateView. rewrite Hn, Ht, Hpt.
  unfold bind. rewrite Hres. unfold try_catch.
  match goal with
  | |- context [ViewService.createView B ?d s0] => set (body := d)
  end.
  exists endpoint, msg, body.
  split; [exact Hscope |]. repeat (split; [reflexivity |]).
  erewrite createView_run by exact Hscope.
  destruct (post_view B endpoint body (world s0)) as [[v | e] w1]; simpl.
  - split; [reflexivity |]. split; [intros e w2 H; discriminate H |].
    intros; exact I.
  - split; [reflexivity |]. split.
    + intros e' w2 H. injection H as <- <-.
      now rewrite handleError_wrapped by discriminate.
    + intros v w2 H. discriminate H.
Qed.

Lemma handleCreateView_posts_to_resolved_parent_witness :
  exists endpoint msg body,
    scope Fixture.backend "space" "42" = Some (endpoint, msg)
    /\ cv_parent body = {| parent_id := "42"; parent_type := "space" |}
    /\ log (snd (ViewTools.handleCreateView Fixture.backend
                   Fixture.create_roadmap Fixture.start_offline))
       = [HttpPostView endpoint body]
    /\ fst (ViewTools.handleCreateView Fixture.backend
              Fixture.create_roadmap Fixture.start_offline)
       = Returned (createErrorResponse
                     "Failed to create view: Rate limit exceeded").
Proof.
  destruct (@handleCreateView_posts_to_resolved_parent
              Fixture.World Fixture.backend Fixture.create_roadmap
              "Roadmap" "list" "space" "42"
              Fixture.start_offline Fixture.start_offline
              eq_refl eq_refl eq_refl (or_intror (or_introl eq_refl)) eq_refl)
    as (endpoint & msg & body & Hscope & _ & _ & Hparent & Hlog & Hfail & _).
  exists endpoint, msg, body.
  split; [exact Hscope |]. split; [exact Hparent |]. split; [exact Hlog |].
  injection Hscope as <- _.
  apply (Hfail Fixture.unreachable (world Fixture.start_offline)).
  reflexivity.
Defined.

(** X9: [create_view] throws only before it creates anything: the thrown
    error is the validation error or the error of the parent resolution,
    and no mutation has been sent. Whatever happens from the creation on is
    answered with a response. *)
Theorem handleCreateView_throws_only_before_creating
        (W : Type) (B : Backend W) (p : ViewParams) (s s1 : St) (e : JsError) :
  ViewTools.handleCreateView B p s = (Thrown e, s1) ->
  (exists pre, log s1 = log s ++ pre /\ quiet pre)
  /\ ((e = Error "name, type, and parentType are required" /\ s1 = s)
      \/ exists pt,
          as_truthy (parentType p) = Some pt
          /\ ViewTools.resolveParentId B pt (parentId p) (parentName p) s
             = (Thrown e, s1)).
Proof.
  unfold ViewTools.handleCreateView.
  assert (Hhere : (@Thrown (ToolResponse CreateViewResult)
                           (Error "name, type, and parentType are required"),
                   s)
                  = (Thrown e, s1) ->
                  (exists pre, log s1 = log s ++ pre /\ quiet pre)
                  /\ ((e = Error "name, type, and parentType are required"
                       /\ s1 = s)
                      \/ exists pt,
                          as_truthy (parentType p) = Some pt
                          /\ ViewTools.resolveParentId B pt (parentId p)
                                                       (parentName p) s
                             = (Thrown e, s1))).
  { intros H. injection H as <- <-. split.
    - exists []. now rewrite app_nil_r.
    - now left. }
  destruct (as_truthy (name p)) as [n |]; [| exact Hhere].
  destruct (as_truthy (type p)) as [t |]; [| exact Hhere].
  destruct (as_truthy (parentType p)) as [pt |]; [| exact Hhere].
  unfold bind, try_catch, ret.
  destruct (resolveParentId_log B pt (parentId p) (parentName p) s)
    as (pre & Hpre & Hquiet).
  destruct (ViewTools.resolveParentId B pt (parentId p) (parentName p) s)
    as [[rid | e0] s0] eqn:Hres; simpl in Hpre.
  - match goal with
    | |- context [ViewService.createView B ?d s0] =>
      destruct (ViewService.createView B d s0) as [[v | e1] s2]
    end; intros H; discriminate H.
  - intros H. injection H as <- <-. split.
    + exists pre. now split.
    + right. exists pt. split; [reflexivity | exact Hres].
Qed.

Lemma handleCreateView_throws_only_before_creating_witness :
  exists pt,
    as_truthy (parentType Cases.create_in_unknown_folder) = Some pt
    /\ ViewTools.resolveParentId Fixture.backend pt None (Some "Nowhere")
                                 (Fixture.start [])
       = (Thrown (Error (notFoundMessage "Folder" "Nowhere")),
          {| world := world (Fixture.start []);
             log := [WsGetWorkspaceHierarchy] |}).
Proof.
  destruct (proj2 (@handleCreateView_throws_only_before_creating
                     Fixture.World Fixture.backend
                     Cases.create_in_unknown_folder (Fixture.start [])
                     {| world := world (Fixture.start []);
                        log := [WsGetWorkspaceHierarchy] |}
                     (Error (notFoundMessage "Folder" "Nowhere")) eq_refl))
    as [[Hvalidation _] | Hresolution].
  - discriminate Hvalidation.
  - exact Hresolution.
Defined.

(** ** Reading, updating and deleting a view *)

Lemma caught_response_returns (W : Type) (P : Type)
      (m : M (W := W) (ToolResponse P)) (h : JsError -> string) (s : St) :
  returns (fst (try_catch m
                  (fun error => ret (createErrorResponse (h error))) s)).
Proof.
  unfold try_catch, ret. destruct (m s) as [[a | e] s']; exact I.
Qed.

(** X10: [get_view], [update_view], [delete_view] and [get_view_tasks]
    never throw: whatever the parameters and whatever the remote does, they
    answer with a response. *)
Theorem view_handlers_always_answer
        (W : Type) (B : Backend W)
        (get_tasks : string -> Z -> M (W := W) ViewTasks.ViewTasksResponse)
        (p : ViewParams) (page : option Z) (s : St) :
  returns (fst (ViewTools.handleGetView B p s))
  /\ returns (fst (ViewTools.handleUpdateView B p s))
  /\ returns (fst (ViewTools.handleDeleteView B p s))
  /\ returns (fst (ViewTasks.handleGetViewTasks B get_tasks p page s)).
Proof.
  repeat split; apply caught_response_returns.
Qed.

(** X11: a non-empty view id takes precedence: [get_view], [update_view]
    and [delete_view] then send their one request to [/view/<id>] and look
    nothing up, whatever view name and parent are given beside it. *)
Theorem view_id_takes_precedence
        (W : Type) (B : Backend W) (p : ViewParams) (id : string) (s : St) :
  as_truthy (viewId p) = Some id ->
  log (snd (ViewTools.handleGetView B p s))
  = log s ++ [HttpGetView ("/view/" +++ id)]
  /\ log (snd (ViewTools.handleUpdateView B p s))
     = log s ++ [HttpPutView ("/view/" +++ id) (ViewTools.buildUpdateData p)]
  /\ log (snd (ViewTools.handleDeleteView B p s))
     = log s ++ [HttpDelete ("/view/" +++ id)].
Proof.
  intros Hid. repeat split.
  - unfold ViewTools.handleGetView. rewrite Hid.
    unfold try_catch at 1. unfold bind, ViewService.getView.
    rewrite forwarded_call by nonempty_message.
    destruct (fst (get_view B ("/view/" +++ id) (world s))); reflexivity.
  - unfold ViewTools.handleUpdateView, try_catch at 1. unfold bind.
    rewrite (resolveViewId_by_id B p s Hid). unfold ViewService.updateView.
    rewrite forwarded_call by nonempty_message.
    destruct (fst (put_view B ("/view/" +++ id) (ViewTools.buildUpdateData p)
                            (world s))); reflexivity.
  - unfold ViewTools.handleDeleteView, try_catch at 1. unfold bind.
    rewrite (resolveViewId_by_id B p s Hid). unfold ViewService.deleteView.
    rewrite forwarded_call by nonempty_message.
    destruct (fst (http_delete B ("/view/" +++ id) (world s))); reflexivity.
Qed.

Lemma view_id_takes_precedence_witness :
  log (snd (ViewTools.handleDeleteView Fixture.backend Cases.delete_v9_or_board
              (Fixture.start Fixture.one_board)))
  = [HttpDelete "/view/v9"].
Proof.
  exact (proj2 (proj2 (@view_id_takes_precedence
                         Fixture.World Fixture.backend Cases.delete_v9_or_board
                         "v9" (Fixture.start Fixture.one_board) eq_refl))).
Defined.

Lemma resolveViewId_by_name
      (W : Type) (B : Backend W) (p : ViewParams)
      (q pt rid endpoint msg : string) (views : list ClickUpView)
      (s s0 : St) (w1 : W) :
  as_truthy (viewId p) = None ->
  as_truthy (viewName p) = Some q ->
  as_truthy (parentType p) = Some pt ->
  ViewTools.resolveParentId B pt (parentId p) (parentName p) s
  = (Returned rid, s0) ->
  scope B pt rid = Some (endpoint, msg) ->
  get_views B endpoint (world s0) = (Returned views, w1) ->
  ViewTools.resolveViewId B p s
  = (match ViewService.find_by_name q views with
     | Some v =>
       match as_truthy (Some (view_id v)) with
       | Some id => Returned id
       | None =>
         Thrown (Error
           "Either viewId or (viewName with parent info) must be provided")
       end
     | None => Thrown (Error (notFoundMessage "View" q))
     end,
     {| world := w1; log := log s0 ++ [HttpGetViews endpoint] |}).
Proof.
  intros Hid Hname Hpt Hres Hscope Hget.
  unfold ViewTools.resolveViewId. rewrite Hid, Hname, Hpt.
  unfold bind. rewrite lookupView_run, Hres.
  erewrite findViewByName_run by exact Hscope. rewrite Hget.
  destruct (ViewService.find_by_name q views) as [v |]; [| reflexivity].
  unfold ret, throw. destruct (as_truthy (Some (view_id v))); reflexivity.
Qed.

(** X12: [delete_view] by name, once the parent is resolved and its views
    are fetched: the view deleted is the first one of that name, and when
    no view has the name the handler answers not found and deletes
    nothing. *)
Theorem handleDeleteView_by_name
        (W : Type) (B : Backend W) (p : ViewParams)
        (q pt rid endpoint msg : string) (views : list ClickUpView)
        (s s0 : St) (w1 : W) :
  as_truthy (viewId p) = None ->
  as_truthy (viewName p) = Some q ->
  as_truthy (parentType p) = Some pt ->
  ViewTools.resolveParentId B pt (parentId p) (parentName p) s
  = (Returned rid, s0) ->
  scope B pt rid = Some (endpoint, msg) ->
  get_views B endpoint (world s0) = (Returned views, w1) ->
  match ViewService.find_by_name q views with
  | Some v =>
    view_id v <> EmptyString ->
    log (snd (ViewTools.handleDeleteView B p s))
    = log s0 ++ [HttpGetViews endpoint; HttpDelete ("/view/" +++ view_id v)]
  | None =>
    ViewTools.handleDeleteView B p s
    = (Returned (createErrorResponse
                   ("Failed to delete view: " +++ notFoundMessage "View" q)),
       {| world := w1; log := log s0 ++ [HttpGetViews endpoint] |})
  end.
Proof.
  intros Hid Hname Hpt Hres Hscope Hget.
  pose proof (resolveViewId_by_name B p s Hid Hname Hpt Hres Hscope Hget)
    as Hview.
  unfold ViewTools.handleDeleteView, try_catch, bind. rewrite Hview.
  destruct (ViewService.find_by_name q views) as [v |]; [| reflexivity].
  intros Hv.
  destruct (view_id v) as [| c r] eqn:Hvid; [contradiction |]. simpl.
  unfold ViewService.deleteView.
  rewrite forwarded_call by nonempty_message. simpl.
  destruct (fst (http_delete B _ w1)); simpl; now rewrite <- app_assoc.
Qed.

Lemma handleDeleteView_by_name_witness :
  log (snd (ViewTools.handleDeleteView Fixture.backend
              (Cases.delete_by_name "Sprint 23")
              (Fixture.start Fixture.two_sprints)))
  = [HttpGetViews "/space/42/view"; HttpDelete "/view/v1"]
  /\ ViewTools.handleDeleteView Fixture.backend (Cases.delete_by_name "Roadmap")
                                (Fixture.start Fixture.one_board)
     = (Returned (createErrorResponse
                    ("Failed to delete view: "
                       +++ notFoundMessage "View" "Roadmap")),
        {| world := world (Fixture.start Fixture.one_board);
           log := [HttpGetViews "/space/42/view"] |}).
Proof.
  split.
  - refine (@handleDeleteView_by_name
              Fixture.World Fixture.backend (Cases.delete_by_name "Sprint 23")
              "Sprint 23" "space" "42" "/space/42/view"
              "Failed to get space views" (map snd Fixture.two_sprints)
              (Fixture.start Fixture.two_sprints)
              (Fixture.start Fixture.two_sprints)
              (world (Fixture.start Fixture.two_sprints))
              eq_refl eq_refl eq_refl eq_refl eq_refl eq_refl _).
    discriminate.
  - exact (@handleDeleteView_by_name
             Fixture.World Fixture.backend (Cases.delete_by_name "Roadmap")
             "Roadmap" "space" "42" "/space/42/view"
             "Failed to get space views" (map snd Fixture.one_board)
             (Fixture.start Fixture.one_board)
             (Fixture.start Fixture.one_board)
             (world (Fixture.start Fixture.one_board))
             eq_refl eq_refl eq_refl eq_refl eq_refl eq_refl).
Defined.

Section MutationRuns.
Context {W : Type} (B : Backend W).

Lemma handleDeleteView_run (p : ViewParams) (s : St) :
  ViewTools.handleDeleteView B p s
  = match ViewTools.resolveViewId B p s with
    | (Returned id, s1) =>
      (match fst (http_delete B ("/view/" +++ id) (world s1)) with
       | Returned _ =>
         Returned (createResponse
                     {| mr_message := "View deleted successfully" |} true)
       | Thrown e =>
         Returned (createErrorResponse
                     ("Failed to delete view: "
                        +++ message (wrapped e ("Failed to delete view " +++ id))))
       end,
       {| world := snd (http_delete B ("/view/" +++ id) (world s1));
          log := log s1 ++ [HttpDelete ("/view/" +++ id)] |})
    | (Thrown e, s1) =>
      (Returned (createErrorResponse
                   ("Failed to delete view: " +++ message e)), s1)
    end.
Proof.
  unfold ViewTools.handleDeleteView, try_catch, bind.
  destruct (ViewTools.resolveViewId B p s) as [[id | e] s1]; [| reflexivity].
  unfold ViewService.deleteView.
  rewrite forwarded_call by nonempty_message.
  destruct (fst (http_delete B ("/view/" +++ id) (world s1))); reflexivity.
Qed.

Lemma handleUpdateView_run (p : ViewParams) (s : St) :
  ViewTools.handleUpdateView B p s
  = match ViewTools.resolveViewId B p s with
    | (Returned id, s1) =>
      (match fst (put_view B ("/view/" +++ id) (ViewTools.buildUpdateData p)
                           (world s1)) with
       | Returned updatedView =>
         Returned (createResponse
                     {| uvr_id := view_id updatedView;
                        uvr_name := view_name updatedView;
                        uvr_type := view_type updatedView;
                        uvr_message :=
                          "View " +++ dq +++ view_name updatedView +++ dq
                            +++ " updated successfully" |} true)
       | Thrown e =>
         Returned (createErrorResponse
                     ("Failed to update view: "
                        +++ message (wrapped e ("Failed to update view " +++ id))))
       end,
       {| world := snd (put_view B ("/view/" +++ id)
                                 (ViewTools.buildUpdateData p) (world s1));
          log := log s1 ++ [HttpPutView ("/view/" +++ id)
                                        (ViewTools.buildUpdateData p)] |})
    | (Thrown e, s1) =>
      (Returned (createErrorResponse
                   ("Failed to update view: " +++ message e)), s1)
    end.
Proof.
  unfold ViewTools.handleUpdateView, try_catch, bind.
  destruct (ViewTools.resolveViewId B p s) as [[id | e] s1]; [| reflexivity].
  unfold ViewService.updateView.
  rewrite forwarded_call by nonempty_message.
  destruct (fst (put_view B ("/view/" +++ id) (ViewTools.buildUpdateData p)
                          (world s1))); reflexivity.
Qed.

End MutationRuns.

(** X13: [delete_view] and [update_view] send at most one mutation, a
    DELETE or PUT on [/view/<id>], and send it last, after lookups only;
    they answer success only if it was sent. *)
Theorem view_mutation_is_single_and_last
        (W : Type) (B : Backend W) (p : ViewParams) (s : St) :
  (exists pre tail,
      log (snd (ViewTools.handleDeleteView B p s)) = log s ++ pre ++ tail
      /\ quiet pre
      /\ (tail = [] \/ exists id, tail = [HttpDelete ("/view/" +++ id)])
      /\ (succeeded (fst (ViewTools.handleDeleteView B p s)) -> tail <> []))
  /\ (exists pre tail,
         log (snd (ViewTools.handleUpdateView B p s)) = log s ++ pre ++ tail
         /\ quiet pre
         /\ (tail = []
             \/ exists id, tail = [HttpPutView ("/view/" +++ id)
                                               (ViewTools.buildUpdateData p)])
         /\ (succeeded (fst (ViewTools.handleUpdateView B p s)) -> tail <> [])).
Proof.
  split.
  - rewrite handleDeleteView_run.
    destruct (resolveViewId_log B p s) as (pre & Hpre & Hquiet).
    destruct (ViewTools.resolveViewId B p s) as [[id | e] s1]; simpl in Hpre.
    + exists pre, [HttpDelete ("/view/" +++ id)]. simpl.
      rewrite Hpre, <- app_assoc. repeat split; eauto; try discriminate.
    + exists pre, []. simpl. rewrite app_nil_r.
      split; [exact Hpre |]. split; [exact Hquiet |].
      split; [now left | intros []].
  - rewrite handleUpdateView_run.
    destruct (resolveViewId_log B p s) as (pre & Hpre & Hquiet).
    destruct (ViewTools.resolveViewId B p s) as [[id | e] s1]; simpl in Hpre.
    + exists pre,
        [HttpPutView ("/view/" +++ id) (ViewTools.buildUpdateData p)]. simpl.
      rewrite Hpre, <- app_assoc. repeat split; eauto; try discriminate.
    + exists pre, []. simpl. rewrite app_nil_r.
      split; [exact Hpre |]. split; [exact Hquiet |].
      split; [now left | intros []].
Qed.

Lemma view_mutation_is_single_and_last_witness :
  exists pre tail,
    log (snd (ViewTools.handleDeleteView Fixture.backend
                (Cases.delete_by_name "Board")
                (Fixture.start Fixture.one_board)))
    = log (Fixture.start Fixture.one_board) ++ pre ++ tail
    /\ quiet pre /\ tail <> [].
Proof.
  destruct (proj1 (@view_mutation_is_single_and_last
                     Fixture.World Fixture.backend
                     (Cases.delete_by_name "Board")
                     (Fixture.start Fixture.one_board)))
    as (pre & tail & Hlog & Hquiet & _ & Hsent).
  exists pre, tail. split; [exact Hlog |]. split; [exact Hquiet |].
  apply Hsent. exact I.
Defined.

(** ** Listing views *)

(** X14: [get_views] without a non-empty parent type throws before doing
    anything; with one it never throws. A parent type outside team, space,
    folder and list is answered with an error response, with no request
    sent and nothing changed: with a non-empty parent id or parent name the
    response says the parent type is invalid, with neither it says that a
    parent id or a parent name must be provided for that type. *)
Theorem handleGetViews_rejections
        (W : Type) (B : Backend W) (p : ViewParams) (s : St) :
  (truthy (parentType p) = false ->
   ViewListing.handleGetViews B p s
   = (Thrown (Error "parentType is required"), s))
  /\ (truthy (parentType p) = true ->
      returns (fst (ViewListing.handleGetViews B p s)))
  /\ (forall pt,
         as_truthy (parentType p) = Some pt ->
         ~ In pt parentTypes ->
         (truthy (parentId p) = true \/ truthy (parentName p) = true ->
          ViewListing.handleGetViews B p s
          = (Returned (createErrorResponse
                         ("Failed to get views: Invalid parent type: " +++ pt)),
             s))
         /\ (truthy (parentId p) = false ->
             truthy (parentName p) = false ->
             ViewListing.handleGetViews B p s
             = (Returned
                  (createErrorResponse
                     ("Failed to get views: "
                        +++ "Either parentId or parentName must be provided for "
                        +++ pt)),
                s))).
Proof.
  unfold ViewListing.handleGetViews. split; [| split].
  - destruct (parentType p) as [[| c r] |]; simpl; try discriminate;
      reflexivity.
  - destruct (parentType p) as [[| c r] |]; simpl; try discriminate.
    intros _. apply caught_response_returns.
  - intros pt Hpt Hinvalid. rewrite Hpt.
    unfold parentTypes in Hinvalid. simpl in Hinvalid.
    assert (Hteam : pt <> "team") by (intros ->; apply Hinvalid; auto).
    assert (H1 : (pt =? "team") = false) by now apply String.eqb_neq.
    assert (H2 : (pt =? "space") = false)
      by (apply String.eqb_neq; intros ->; apply Hinvalid; auto).
    assert (H3 : (pt =? "folder") = false)
      by (apply String.eqb_neq; intros ->; apply Hinvalid; auto).
    assert (H4 : (pt =? "list") = false)
      by (apply String.eqb_neq; intros ->; apply Hinvalid; auto 6).
    split.
    + intros Hgiven. unfold try_catch, bind, ViewTools.resolveParentId.
      rewrite H1.
      destruct (parentId p) as [[| c r] |]; simpl;
        try (rewrite ?H1, ?H2, ?H3, ?H4; reflexivity);
        (destruct (parentName p) as [[| c' r'] |]; simpl;
         [destruct Hgiven as [H | H]; cbv in H; discriminate
         | rewrite H2, H3, H4; reflexivity
         | destruct Hgiven as [H | H]; cbv in H; discriminate]).
    + intros Hid Hname. unfold try_catch, bind.
      now rewrite (@resolveParentId_nothing_usable
                     W B pt (parentId p) (parentName p) s Hteam Hid Hname).
Qed.

Lemma handleGetViews_rejections_witness :
  ViewListing.handleGetViews Fixture.backend (Cases.views_of None (Some "42"))
                             (Fixture.start Fixture.one_board)
  = (Thrown (Error "parentType is required"), Fixture.start Fixture.one_board)
  /\ returns (fst (ViewListing.handleGetViews Fixture.backend
                     (Cases.views_of (Some "space") None)
                     (Fixture.start Fixture.one_board)))
  /\ ViewListing.handleGetViews Fixture.backend
                                (Cases.views_of (Some "board") (Some "42"))
                                (Fixture.start Fixture.one_board)
     = (Returned (createErrorResponse
                    "Failed to get views: Invalid parent type: board"),
        Fixture.start Fixture.one_board)
  /\ ViewListing.handleGetViews Fixture.backend
                                (Cases.views_of (Some "board") None)
                                (Fixture.start Fixture.one_board)
     = (Returned
          (createErrorResponse
             "Failed to get views: Either parentId or parentName must be provided for board"),
        Fixture.start Fixture.one_board).
Proof.
  assert (Hboard : ~ In "board" parentTypes).
  { unfold parentTypes. simpl.
    intros [H | [H | [H | [H | []]]]]; discriminate H. }
  split; [| split; [| split]].
  - exact (proj1 (@handleGetViews_rejections
                    Fixture.World Fixture.backend
                    (Cases.views_of None (Some "42"))
                    (Fixture.start Fixture.one_board)) eq_refl).
  - exact (proj1 (proj2 (@handleGetViews_rejections
                    Fixture.World Fixture.backend
                    (Cases.views_of (Some "space") None)
                    (Fixture.start Fixture.one_board))) eq_refl).
  - exact (proj1 (proj2 (proj2 (@handleGetViews_rejections
                    Fixture.World Fixture.backend
                    (Cases.views_of (Some "board") (Some "42"))
                    (Fixture.start Fixture.one_board)))
                   "board" eq_refl Hboard) (or_introl eq_refl)).
  - exact (proj2 (proj2 (proj2 (@handleGetViews_rejections
                    Fixture.World Fixture.backend
                    (Cases.views_of (Some "board") None)
                    (Fixture.start Fixture.one_board)))
                   "board" eq_refl Hboard) eq_refl eq_refl).
Defined.

(** X15: once the parent of a [get_views] is resolved, the handler sends
    one GET to that parent's view endpoint and lists exactly the views that
    came back, in their order, with a count equal to their number; a failed
    fetch is answered with the error response carrying its message. *)
Theorem handleGetViews_lists_what_was_fetched
        (W : Type) (B : Backend W) (p : ViewParams)
        (pt rid endpoint msg : string) (s s0 : St) :
  as_truthy (parentType p) = Some pt ->
  ViewTools.resolveParentId B pt (parentId p) (parentName p) s
  = (Returned rid, s0) ->
  scope B pt rid = Some (endpoint, msg) ->
  ViewListing.handleGetViews B p s
  = (match fst (get_views B endpoint (world s0)) with
     | Returned views => Returned (createResponse (ViewListing.listing views) true)
     | Thrown e =>
       Returned (createErrorResponse
                   ("Failed to get views: " +++ message (wrapped e msg)))
     end,
     {| world := snd (get_views B endpoint (world s0));
        log := log s0 ++ [HttpGetViews endpoint] |})
  /\ forall views,
      ViewListing.gvs_count (ViewListing.listing views) = length views
      /\ length (ViewListing.gvs_views (ViewListing.listing views))
         = length views
      /\ map ViewListing.vs_id (ViewListing.gvs_views (ViewListing.listing views))
         = map view_id views
      /\ map ViewListing.vs_name
             (ViewListing.gvs_views (ViewListing.listing views))
         = map view_name views.
Proof.
  intros Hpt Hres Hscope. split.
  - unfold ViewListing.handleGetViews. rewrite Hpt.
    unfold try_catch at 1. unfold bind. rewrite Hres.
    unfold scope in Hscope.
    unfold ViewService.getWorkspaceViews, ViewService.getSpaceViews,
      ViewService.getFolderViews, ViewService.getListViews.
    destruct (pt =? "team");
      [| destruct (pt =? "space");
         [| destruct (pt =? "folder");
            [| destruct (pt =? "list"); [| discriminate]]]];
      injection Hscope as <- <-;
      rewrite forwarded_call by discriminate;
      destruct (fst (get_views B _ (world s0))); reflexivity.
  - intros views. unfold ViewListing.listing. simpl.
    rewrite length_map, !map_map. simpl. auto.
Qed.

Lemma handleGetViews_lists_what_was_fetched_witness :
  ViewListing.handleGetViews Fixture.backend
                             (Cases.views_of (Some "space") (Some "42"))
                             (Fixture.start Fixture.two_sprints)
  = (Returned (createResponse
                 (ViewListing.listing (map snd Fixture.two_sprints)) true),
     {| world := world (Fixture.start Fixture.two_sprints);
        log := [HttpGetViews "/space/42/view"] |}).
Proof.
  exact (proj1 (@handleGetViews_lists_what_was_fetched
                  Fixture.World Fixture.backend
                  (Cases.views_of (Some "space") (Some "42"))
                  "space" "42" "/space/42/view" "Failed to get space views"
                  (Fixture.start Fixture.two_sprints)
                  (Fixture.start Fixture.two_sprints)
                  eq_refl eq_refl eq_refl)).
Defined.

(** ** The tasks of a view *)

(** X16: [get_view_tasks] with a non-empty view id asks for the tasks of
    [/view/<id>/task] once, on the given page or on page 0 when none is
    given; the response counts the tasks that came back, reports more
    pages exactly when the page is not marked as the last one, and a
    failure is answered with the error response carrying the message of
    the service error. *)
Theorem handleGetViewTasks_by_id
        (W : Type) (B : Backend W)
        (get_tasks : string -> Z -> M (W := W) ViewTasks.ViewTasksResponse)
        (p : ViewParams) (page : option Z) (id : string) (s : St) :
  as_truthy (viewId p) = Some id ->
  let pg := match page with Some n => n | None => 0%Z end in
  ViewTasks.handleGetViewTasks B get_tasks p page s
  = match get_tasks ("/view/" +++ id +++ "/task") pg s with
    | (Returned result, s1) =>
      (Returned (createResponse (ViewTasks.page_of_tasks result pg) true), s1)
    | (Thrown e, s1) =>
      (Returned (createErrorResponse
                   ("Failed to get view tasks: "
                      +++ message (wrapped e ("Failed to get tasks from view "
                                                +++ id)))), s1)
    end
  /\ forall result,
      ViewTasks.gtr_count (ViewTasks.page_of_tasks result pg)
      = length (ViewTasks.tasks result)
      /\ length (ViewTasks.gtr_tasks (ViewTasks.page_of_tasks result pg))
         = length (ViewTasks.tasks result)
      /\ ViewTasks.gtr_page (ViewTasks.page_of_tasks result pg) = pg
      /\ (ViewTasks.gtr_hasMore (ViewTasks.page_of_tasks result pg) = false
          <-> ViewTasks.last_page result = Some true).
Proof.
  intros Hid pg. split.
  - unfold ViewTasks.handleGetViewTasks, try_catch at 1. unfold bind. fold pg.
    rewrite (resolveViewId_by_id B p s Hid).
    unfold ViewTasks.getViewTasks, try_catch, throw, ret.
    destruct (get_tasks ("/view/" +++ id +++ "/task") pg s) as [[r | e] s1];
      [reflexivity |].
    now rewrite handleError_wrapped by nonempty_message.
  - intros result. unfold ViewTasks.page_of_tasks, ViewTasks.hasMore. simpl.
    rewrite length_map. repeat split; auto.
    + destruct (ViewTasks.last_page result) as [[|] |]; simpl;
        intros H; try discriminate H; reflexivity.
    + intros ->. reflexivity.
Qed.

Lemma handleGetViewTasks_by_id_witness :
  ViewTasks.handleGetViewTasks Fixture.backend Cases.get_one_task
                               Cases.delete_v9_or_board None (Fixture.start [])
  = (Returned (createResponse
                 (ViewTasks.page_of_tasks Cases.one_task 0%Z) true),
     Fixture.start [])
  /\ ViewTasks.handleGetViewTasks Fixture.backend Cases.get_tasks_failing
                                  Cases.delete_v9_or_board (Some 2%Z)
                                  (Fixture.start [])
     = (Returned (createErrorResponse
                    "Failed to get view tasks: Failed to get tasks from view v9"),
        Fixture.start []).
Proof.
  split.
  - exact (proj1 (@handleGetViewTasks_by_id
                    Fixture.World Fixture.backend Cases.get_one_task
                    Cases.delete_v9_or_board None "v9" (Fixture.start [])
                    eq_refl)).
  - exact (proj1 (@handleGetViewTasks_by_id
                    Fixture.World Fixture.backend Cases.get_tasks_failing
                    Cases.delete_v9_or_board (Some 2%Z) "v9" (Fixture.start [])
                    eq_refl)).
Defined.

(** ** Building requests *)

(** X17: the grouping and the filters that [update_view] and [create_view]
    send. The request carries a grouping exactly when [groupBy] is a
    non-empty string; the grouping has that field and the given direction,
    or 1 when none or 0 is given, so its direction is never 0, and a
    direction without [groupBy] is not sent. The request carries filters
    exactly when [filters] is given: the conditions in their number and
    order, none when no conditions are given, combined with the given
    operator, or AND when it is missing or empty. *)
Theorem grouping_and_filters_defaults
        (W : Type) (B : Backend W) (p : ViewParams) (s : St) :
  let grouping :=
      match groupBy p with
      | Some (String c r) =>
        Some {| grouping_field := String c r;
                grouping_dir := match groupDirection p with
                                | Some 0%Z => 1%Z
                                | Some d => d
                                | None => 1%Z
                                end |}
      | _ => None
      end in
  let sent_filters :=
      match filters p with
      | Some f =>
        Some {| filters_op := match f_operator f with
                              | Some (String c r) => String c r
                              | _ => "AND"
                              end;
                filters_filters :=
                  match f_conditions f with
                  | Some cs =>
                    map (fun c => {| cond_field := c_field c;
                                     cond_op := c_operator c;
                                     cond_value := c_value c |}) cs
                  | None => []
                  end |}
      | None => None
      end in
  let as_said (sent : option Grouping) (sent_f : option ViewFilters) :=
      sent = grouping
      /\ sent_f = sent_filters
      /\ (sent <> None <-> truthy (groupBy p) = true)
      /\ (forall g, sent = Some g ->
                    groupBy p = Some (grouping_field g)
                    /\ grouping_dir g <> 0%Z
                    /\ (groupDirection p = None \/ groupDirection p = Some 0%Z ->
                        grouping_dir g = 1%Z)
                    /\ (forall d, groupDirection p = Some d -> d <> 0%Z ->
                                  grouping_dir g = d))
      /\ (sent_f <> None <-> filters p <> None) in
  (forall id,
      as_truthy (viewId p) = Some id ->
      exists data,
        log (snd (ViewTools.handleUpdateView B p s))
        = log s ++ [HttpPutView ("/view/" +++ id) data]
        /\ as_said (uv_grouping data) (uv_filters data))
  /\ (forall n t pt rid s0 endpoint msg,
         as_truthy (name p) = Some n ->
         as_truthy (type p) = Some t ->
         as_truthy (parentType p) = Some pt ->
         ViewTools.resolveParentId B pt (parentId p) (parentName p) s
         = (Returned rid, s0) ->
         scope B pt rid = Some (endpoint, msg) ->
         exists data,
           log (snd (ViewTools.handleCreateView B p s))
           = log s0 ++ [HttpPostView endpoint data]
           /\ cv_name data = n /\ cv_type data = t
           /\ as_said (cv_grouping data) (cv_filters data)).
Proof.
  intros grouping sent_filters as_said.
  assert (Hgrouping :
            ViewTools.grouping_of (groupBy p) (groupDirection p) = grouping).
  { unfold ViewTools.grouping_of, ViewTools.dir_or_1, grouping.
    destruct (groupBy p) as [[| c r] |]; reflexivity. }
  assert (Hfilters : ViewTools.filters_of (filters p) = sent_filters).
  { unfold ViewTools.filters_of, sent_filters.
    destruct (filters p) as [f |]; [| reflexivity].
    destruct (f_operator f) as [[| c r] |]; reflexivity. }
  assert (Hsaid : as_said grouping sent_filters).
  { unfold as_said, grouping, sent_filters.
    split; [reflexivity |]. split; [reflexivity |]. split; [| split].
    - destruct (groupBy p) as [[| c r] |]; simpl; split;
        try discriminate; try reflexivity; intros H; now contradiction H.
    - intros g. destruct (groupBy p) as [[| c r] |]; try discriminate.
      intros H. injection H as <-. simpl.
      split; [reflexivity |]. split; [| split].
      + destruct (groupDirection p) as [[| d | d] |]; discriminate.
      + intros [-> | ->]; reflexivity.
      + intros d -> Hd.
        destruct d; [contradiction | reflexivity | reflexivity].
    - destruct (filters p) as [f |]; split; try discriminate;
        intros H; now contradiction H. }
  split.
  - intros id Hid. unfold ViewTools.handleUpdateView, try_catch, bind.
    rewrite (resolveViewId_by_id B p s (id := id)) by exact Hid.
    unfold ViewService.updateView, try_catch, call, throw, ret.
    exists (ViewTools.buildUpdateData p). split.
    + destruct (put_view B ("/view/" +++ id) (ViewTools.buildUpdateData p)
                         (world s)) as [[v | e] w']; reflexivity.
    + unfold ViewTools.buildUpdateData. simpl.
      rewrite Hgrouping, Hfilters. exact Hsaid.
  - intros n t pt rid s0 endpoint msg Hn Ht Hpt Hres Hscope.
    unfold ViewTools.handleCreateView. rewrite Hn, Ht, Hpt.
    unfold bind at 1. rewrite Hres.
    eexists. split.
    + unfold try_catch, bind.
      erewrite createView_run by exact Hscope.
      destruct (post_view B endpoint _ (world s0)) as [[v | e] w'];
        reflexivity.
    + simpl. split; [reflexivity |]. split; [reflexivity |].
      rewrite Hgrouping, Hfilters. exact Hsaid.
Qed.

Lemma grouping_and_filters_defaults_witness :
  (exists data,
      log (snd (ViewTools.handleUpdateView Fixture.backend Cases.redirect_v1
                  (Fixture.start Fixture.one_board)))
      = [HttpPutView "/view/v1" data]
      /\ uv_grouping data = None)
  /\ (exists data,
         log (snd (ViewTools.handleUpdateView Fixture.backend Fixture.regroup_v1
                     (Fixture.start Fixture.one_board)))
         = [HttpPutView "/view/v1" data]
         /\ uv_grouping data
            = Some {| grouping_field := "status"; grouping_dir := 1 |})
  /\ exists data,
      log (snd (ViewTools.handleCreateView Fixture.backend
                  Fixture.create_roadmap (Fixture.start [])))
      = [HttpPostView "/space/42/view" data]
      /\ cv_name data = "Roadmap"
      /\ cv_grouping data = None /\ cv_filters data = None.
Proof.
  split; [| split].
  - destruct (proj1 (@grouping_and_filters_defaults
                       Fixture.World Fixture.backend Cases.redirect_v1
                       (Fixture.start Fixture.one_board)) "v1" eq_refl)
      as (data & Hlog & Hgrouping & _).
    exists data. split; [exact Hlog | exact Hgrouping].
  - destruct (proj1 (@grouping_and_filters_defaults
                       Fixture.World Fixture.backend Fixture.regroup_v1
                       (Fixture.start Fixture.one_board)) "v1" eq_refl)
      as (data & Hlog & Hgrouping & _).
    exists data. split; [exact Hlog | exact Hgrouping].
  - destruct (proj2 (@grouping_and_filters_defaults
                       Fixture.World Fixture.backend Fixture.create_roadmap
                       (Fixture.start []))
                    "Roadmap" _ "space" "42" (Fixture.start [])
                    "/space/42/view" _
                    eq_refl eq_refl eq_refl eq_refl eq_refl)
      as (data & Hlog & Hname & _ & Hgrouping & Hfilters & _).
    exists data. split; [exact Hlog |]. split; [exact Hname |].
    split; [exact Hgrouping | exact Hfilters].
Defined.

(** X18: the update handlers do not look at whether there is anything to
    update: with the target given by id and no field to change,
    [update_view] still sends its PUT and [update_space] its update, both
    with an empty body. *)
Theorem update_is_sent_even_when_empty
        (W : Type) (B : Backend W) (p : ViewParams) (sp : SpaceParams)
        (id sid : string) (s : St) :
  as_truthy (viewId p) = Some id ->
  truthy (name p) = false -> truthy (groupBy p) = false ->
  filters p = None -> columns p = None -> settings p = None ->
  as_truthy (spaceId sp) = Some sid ->
  truthy (s_name sp) = false -> truthy (color sp) = false ->
  isPrivate sp = None -> adminCanManage sp = None ->
  multipleAssignees sp = None -> features sp = None ->
  log (snd (ViewTools.handleUpdateView B p s))
  = log s ++ [HttpPutView ("/view/" +++ id)
                {| uv_name := None; uv_grouping := None; uv_filters := None;
                   uv_columns := None; uv_settings := None |}]
  /\ log (snd (SpaceTools.handleUpdateSpace B sp s))
     = log s ++ [WsUpdateSpace sid
                   {| us_name := None; us_color := None; us_private := None;
                      us_admin_can_manage := None;
                      us_multiple_assignees := None; us_features := None |}].
Proof.
  intros Hid Hname Hgroup Hfilters Hcolumns Hsettings
         Hsid Hsname Hcolor Hprivate Hadmin Hmulti Hfeatures.
  split.
  - rewrite handleUpdateView_run, (resolveViewId_by_id B p s Hid). simpl.
    unfold ViewTools.buildUpdateData, ViewTools.grouping_of.
    rewrite Hfilters, Hcolumns, Hsettings.
    destruct (name p) as [[| c r] |]; try discriminate;
      destruct (groupBy p) as [[| c' r'] |]; try discriminate; reflexivity.
  - unfold SpaceTools.handleUpdateSpace, try_catch, bind, ret.
    assert (Hdata : SpaceTools.buildUpdateData B sp
                    = {| us_name := None; us_color := None; us_private := None;
                         us_admin_can_manage := None;
                         us_multiple_assignees := None; us_features := None |}).
    { unfold SpaceTools.buildUpdateData.
      rewrite Hprivate, Hadmin, Hmulti, Hfeatures.
      destruct (s_name sp) as [[| c r] |]; try discriminate;
        destruct (color sp) as [[| c' r'] |]; try discriminate; reflexivity. }
    rewrite Hdata.
    destruct (spaceId sp) as [[| c r] |]; try discriminate.
    injection Hsid as <-. simpl.
    destruct (as_truthy (spaceName sp)); simpl; unfold call;
      match goal with
      | |- context [updateSpace B ?i ?d ?w] =>
        destruct (updateSpace B i d w) as [[u | e] w']
      end; reflexivity.
Qed.

Lemma update_is_sent_even_when_empty_witness :
  log (snd (ViewTools.handleUpdateView Fixture.backend Cases.update_nothing
              (Fixture.start Fixture.one_board)))
  = [HttpPutView "/view/v1"
       {| uv_name := None; uv_grouping := None; uv_filters := None;
          uv_columns := None; uv_settings := None |}]
  /\ log (snd (SpaceTools.handleUpdateSpace Fixture.backend
                 (Cases.space_params (Some "s1") None)
                 (Fixture.start Fixture.one_board)))
     = [WsUpdateSpace "s1"
          {| us_name := None; us_color := None; us_private := None;
             us_admin_can_manage := None; us_multiple_assignees := None;
             us_features := None |}].
Proof.
  exact (@update_is_sent_even_when_empty
           Fixture.World Fixture.backend Cases.update_nothing
           (Cases.space_params (Some "s1") None) "v1" "s1"
           (Fixture.start Fixture.one_board)
           eq_refl eq_refl eq_refl eq_refl eq_refl eq_refl
           eq_refl eq_refl eq_refl eq_refl eq_refl eq_refl eq_refl).
Defined.

(** ** Space features *)

(** X19: [convertFeaturesToAPI] never yields an empty object. It answers
    undefined exactly when no features are given or none of the nine known
    features is present; otherwise the result has one key per feature
    present, each toggle is passed on as it is, and the due-date settings
    are passed on under their API names. *)
Theorem convertFeaturesToAPI_keys (features : option FeaturesParam) :
  let present f :=
      supplied (dueDates f) + supplied (timeTracking f) + supplied (f_tags f)
      + supplied (timeEstimates f) + supplied (f_checklists f)
      + supplied (customFields f) + supplied (remapDependencies f)
      + supplied (dependencyWarning f) + supplied (f_portfolios f) in
  (SpaceTools.convertFeaturesToAPI features = None
   <-> features = None \/ exists f, features = Some f /\ present f = 0)
  /\ forall api,
      SpaceTools.convertFeaturesToAPI features = Some api ->
      exists f,
        features = Some f
        /\ SpaceTools.feature_keys api = present f
        /\ 1 <= SpaceTools.feature_keys api
        /\ time_tracking api = timeTracking f
        /\ tags api = f_tags f
        /\ time_estimates api = timeEstimates f
        /\ checklists api = f_checklists f
        /\ custom_fields api = customFields f
        /\ remap_dependencies api = remapDependencies f
        /\ dependency_warning api = dependencyWarning f
        /\ portfolios api = f_portfolios f
        /\ due_dates api
           = match dueDates f with
             | Some d =>
               Some {| dd_enabled := dueDates_enabled d;
                       dd_start_date := startDate d;
                       dd_remap_due_dates := remapDueDates d;
                       dd_remap_closed_due_date := remapClosedDueDate d |}
             | None => None
             end.
Proof.
  intros present. unfold SpaceTools.convertFeaturesToAPI.
  destruct features as [f |].
  - match goal with
    | |- context [Nat.ltb 0 (SpaceTools.feature_keys ?a)] => set (api0 := a)
    end.
    assert (Hkeys : SpaceTools.feature_keys api0 = present f).
    { unfold SpaceTools.feature_keys, api0, present, SpaceTools.key, supplied.
      simpl. destruct (dueDates f); reflexivity. }
    destruct (Nat.ltb 0 (SpaceTools.feature_keys api0)) eqn:Hpos.
    + apply Nat.ltb_lt in Hpos. split.
      * split; [discriminate |].
        intros [H | (f' & Heq & Hzero)]; [discriminate |].
        injection Heq as <-. lia.
      * intros api H. injection H as <-. exists f.
        split; [reflexivity |]. split; [exact Hkeys |]. split; [lia |].
        repeat split.
    + apply Nat.ltb_ge in Hpos. split.
      * split; [| reflexivity]. intros _. right. exists f.
        split; [reflexivity | lia].
      * intros api H. discriminate H.
  - split.
    + split; [now left | reflexivity].
    + intros api H. discriminate H.
Qed.

Lemma convertFeaturesToAPI_keys_witness :
  SpaceTools.convertFeaturesToAPI (Some Cases.no_features) = None
  /\ exists f,
      Some Cases.only_tags = Some f
      /\ SpaceTools.feature_keys
           {| due_dates := None; time_tracking := None;
              tags := Some {| enabled := Some true |}; time_estimates := None;
              checklists := None; custom_fields := None;
              remap_dependencies := None; dependency_warning := None;
              portfolios := None |} = 1.
Proof.
  split.
  - apply (proj2 (proj1 (convertFeaturesToAPI_keys (Some Cases.no_features)))).
    right. exists Cases.no_features. split; reflexivity.
  - destruct (proj2 (convertFeaturesToAPI_keys (Some Cases.only_tags))
                    _ eq_refl)
      as (f & Hf & Hkeys & _).
    exists f. split; [exact Hf |].
    injection Hf as <-. exact Hkeys.
Defined.

(** ** The space handlers *)

(** X20: [update_space] and [delete_space] never throw; [create_space]
    throws exactly when the name is missing or empty, and then at once,
    with the space-name-required error and without any call. *)
Theorem space_handlers_throw_only_for_missing_name
        (W : Type) (B : Backend W) (p : SpaceParams) (s : St) :
  returns (fst (SpaceTools.handleUpdateSpace B p s))
  /\ returns (fst (SpaceTools.handleDeleteSpace B p s))
  /\ (truthy (s_name p) = true ->
      returns (fst (SpaceTools.handleCreateSpace B p s)))
  /\ (truthy (s_name p) = false ->
      SpaceTools.handleCreateSpace B p s
      = (Thrown (Error "Space name is required"), s)).
Proof.
  split; [apply caught_response_returns |].
  split; [apply caught_response_returns |].
  unfold SpaceTools.handleCreateSpace.
  destruct (s_name p) as [[| c r] |]; simpl; split;
    intros H; try discriminate H; try reflexivity.
  apply caught_response_returns.
Qed.

Lemma space_handlers_throw_only_for_missing_name_witness :
  returns (fst (SpaceTools.handleCreateSpace Fixture.backend
                  (Fixture.create_eng None) Fixture.start_offline))
  /\ SpaceTools.handleCreateSpace Fixture.backend
                                  (Cases.space_params (Some "s1") (Some "Eng"))
                                  (Fixture.start [])
     = (Thrown (Error "Space name is required"), Fixture.start []).
Proof.
  split.
  - exact (proj1 (proj2 (proj2 (@space_handlers_throw_only_for_missing_name
                    Fixture.World Fixture.backend (Fixture.create_eng None)
                    Fixture.start_offline))) eq_refl).
  - exact (proj2 (proj2 (proj2 (@space_handlers_throw_only_for_missing_name
                    Fixture.World Fixture.backend
                    (Cases.space_params (Some "s1") (Some "Eng"))
                    (Fixture.start [])))) eq_refl).
Defined.

Section CreateSpaceRuns.
Context {W : Type} (B : Backend W).

Lemma name_not_set_same (c : ascii) (r : string) :
  SpaceTools.name_not_set (Some (String c r)) (String c r) = false.
Proof.
  unfold SpaceTools.name_not_set. now rewrite String.eqb_refl.
Qed.

Lemma as_truthy_some (o : option string) (n : string) :
  as_truthy o = Some n -> o = Some n /\ n <> EmptyString.
Proof.
  destruct o as [[| c r] |]; simpl; intros H; try discriminate H.
  injection H as <-. split; [reflexivity | discriminate].
Qed.

End CreateSpaceRuns.

(** X21: [create_space] makes the creation its only call when there is
    nothing to follow up: no non-empty colour, no privacy setting, and a
    creation response that reports the requested name. The response then
    describes the space as the creation reported it. *)
Theorem handleCreateSpace_without_follow_up
        (W : Type) (B : Backend W) (p : SpaceParams) (n : string)
        (newSpace : ClickUpSpace) (s : St) (w1 : W) :
  as_truthy (s_name p) = Some n ->
  truthy (color p) = false ->
  isPrivate p = None ->
  createSpace B (SpaceTools.buildSpaceData n p) (world s)
  = (Returned newSpace, w1) ->
  space_name newSpace = Some n ->
  SpaceTools.handleCreateSpace B p s
  = (Returned (createResponse
                 {| csr_id := space_id newSpace;
                    csr_name := n;
                    csr_private := space_private newSpace;
                    csr_features := space_features newSpace;
                    csr_url := SpaceTools.space_url B (space_id newSpace);
                    csr_message := "Space " +++ dq +++ n +++ dq
                                     +++ " created successfully" |} true),
     {| world := w1;
        log := log s ++ [WsCreateSpace (SpaceTools.buildSpaceData n p)] |}).
Proof.
  intros Hname Hcolor Hprivate Hcreate Hreported.
  destruct (as_truthy_some _ Hname) as [_ Hn].
  destruct n as [| c r]; [contradiction |].
  assert (Hset : SpaceTools.name_not_set (space_name newSpace) (String c r)
                 = false)
    by (rewrite Hreported; apply name_not_set_same).
  assert (Hdata : SpaceTools.followUpData B (String c r) p newSpace
                  = {| us_name := None; us_color := None; us_private := None;
                       us_admin_can_manage := None;
                       us_multiple_assignees := None; us_features := None |}).
  { unfold SpaceTools.followUpData. rewrite Hset, Hprivate.
    destruct (color p) as [[| c' r'] |]; try discriminate; reflexivity. }
  unfold SpaceTools.handleCreateSpace. rewrite Hname.
  unfold try_catch, bind, call. rewrite Hcreate, Hdata. simpl.
  rewrite Hset. simpl. rewrite Hreported. reflexivity.
Qed.

Lemma handleCreateSpace_without_follow_up_witness :
  log (snd (SpaceTools.handleCreateSpace Fixture.backend
              (Fixture.create_eng None) (Fixture.start [])))
  = [WsCreateSpace Fixture.eng_data].
Proof.
  exact (f_equal (fun r => log (snd r))
           (@handleCreateSpace_without_follow_up
              Fixture.World Fixture.backend (Fixture.create_eng None) "Eng"
              (Fixture.new_space Fixture.eng_data) (Fixture.start []) _
              eq_refl eq_refl eq_refl eq_refl eq_refl)).
Defined.

(** X22: how [create_space] fails. A failed creation is answered with the
    error response and nothing else is called. When the creation succeeds
    and the follow-up update fails, the answer is likewise the error
    response of a failed creation, although the space has been created,
    and no get is sent. *)
Theorem handleCreateSpace_failures
        (W : Type) (B : Backend W) (p : SpaceParams) (n : string) (s : St) :
  as_truthy (s_name p) = Some n ->
  let data := SpaceTools.buildSpaceData n p in
  (forall e w1,
      createSpace B data (world s) = (Thrown e, w1) ->
      SpaceTools.handleCreateSpace B p s
      = (Returned (createErrorResponse
                     ("Failed to create space: " +++ message e)),
         {| world := w1; log := log s ++ [WsCreateSpace data] |}))
  /\ (forall newSpace w1 e w2,
         createSpace B data (world s) = (Returned newSpace, w1) ->
         truthy (color p) = true \/ isPrivate p <> None
         \/ space_name newSpace <> Some n ->
         updateSpace B (space_id newSpace)
                     (SpaceTools.followUpData B n p newSpace) w1
         = (Thrown e, w2) ->
         SpaceTools.handleCreateSpace B p s
         = (Returned (createErrorResponse
                        ("Failed to create space: " +++ message e)),
            {| world := w2;
               log := log s
                      ++ [WsCreateSpace data;
                          WsUpdateSpace (space_id newSpace)
                            (SpaceTools.followUpData B n p newSpace)] |})).
Proof.
  intros Hname data. unfold SpaceTools.handleCreateSpace. rewrite Hname.
  fold data. unfold try_catch, bind, call. split.
  - intros e w1 ->. reflexivity.
  - intros newSpace w1 e w2 -> Htrigger Hupdate.
    rewrite (@followUpData_has_keys W B n p newSpace Htrigger). simpl.
    rewrite Hupdate. simpl. now rewrite <- app_assoc.
Qed.

Lemma handleCreateSpace_failures_witness :
  SpaceTools.handleCreateSpace Fixture.backend (Fixture.create_eng None)
                               Fixture.start_offline
  = (Returned (createErrorResponse
                 "Failed to create space: Rate limit exceeded"),
     {| world := world Fixture.start_offline;
        log := [WsCreateSpace Fixture.eng_data] |}).
Proof.
  exact (proj1 (@handleCreateSpace_failures
                  Fixture.World Fixture.backend (Fixture.create_eng None)
                  "Eng" Fixture.start_offline eq_refl)
               Fixture.unreachable (world Fixture.start_offline) eq_refl).
Defined.



(** X24: [update_space] updates only a space it has pinned down. A
    non-empty id is used as it is, without any lookup; a name alone is
    looked up, the space found is the one updated, and nothing is updated
    when no space has that name. *)
Theorem handleUpdateSpace_target
        (W : Type) (B : Backend W) (p : SpaceParams) (s : St) :
  (forall id,
      as_truthy (spaceId p) = Some id ->
      log (snd (SpaceTools.handleUpdateSpace B p s))
      = log s ++ [WsUpdateSpace id (SpaceTools.buildUpdateData B p)])
  /\ (forall n w1,
         as_truthy (spaceId p) = None ->
         as_truthy (spaceName p) = Some n ->
         findSpaceByName B n (world s) = (Returned None, w1) ->
         SpaceTools.handleUpdateSpace B p s
         = (Returned (createErrorResponse
                        ("Failed to update space: "
                           +++ notFoundMessage "Space" n)),
            {| world := w1; log := log s ++ [WsFindSpaceByName n] |}))
  /\ (forall n found w1,
         as_truthy (spaceId p) = None ->
         as_truthy (spaceName p) = Some n ->
         findSpaceByName B n (world s) = (Returned (Some found), w1) ->
         space_id found <> EmptyString ->
         log (snd (SpaceTools.handleUpdateSpace B p s))
         = log s ++ [WsFindSpaceByName n;
                     WsUpdateSpace (space_id found)
                                   (SpaceTools.buildUpdateData B p)]).
Proof.
  unfold SpaceTools.handleUpdateSpace, try_catch, bind, call, ret, throw.
  repeat split.
  - intros id Hid. rewrite Hid.
    destruct (as_truthy (spaceName p)); simpl; rewrite Hid;
      destruct (updateSpace B id (SpaceTools.buildUpdateData B p) (world s))
        as [[u | e] w1]; reflexivity.
  - intros n w1 Hid Hn Hfind. rewrite Hid, Hn, Hfind. reflexivity.
  - intros n found w1 Hid Hn Hfind Hfound. rewrite Hid, Hn, Hfind. simpl.
    destruct (space_id found) as [| c r]; [contradiction |]. simpl.
    destruct (updateSpace B (String c r) (SpaceTools.buildUpdateData B p) w1)
      as [[u | e] w2]; simpl; now rewrite <- app_assoc.
Qed.

Lemma handleUpdateSpace_target_witness :
  log (snd (SpaceTools.handleUpdateSpace Fixture.backend
              (Cases.space_params (Some "s9") (Some "Eng"))
              Cases.start_with_eng))
  = [WsUpdateSpace "s9"
       (SpaceTools.buildUpdateData Fixture.backend
          (Cases.space_params (Some "s9") (Some "Eng")))]
  /\ log (snd (SpaceTools.handleUpdateSpace Fixture.backend
                 (Cases.space_params None (Some "Ops")) Cases.start_with_eng))
     = [WsFindSpaceByName "Ops"]
  /\ log (snd (SpaceTools.handleUpdateSpace Fixture.backend
                 (Cases.space_params None (Some "Eng")) Cases.start_with_eng))
     = [WsFindSpaceByName "Eng";
        WsUpdateSpace "s1"
          (SpaceTools.buildUpdateData Fixture.backend
             (Cases.space_params None (Some "Eng")))].
Proof.
  split; [| split].
  - exact (proj1 (@handleUpdateSpace_target
                    Fixture.World Fixture.backend
                    (Cases.space_params (Some "s9") (Some "Eng"))
                    Cases.start_with_eng) "s9" eq_refl).
  - exact (f_equal (fun r => log (snd r))
             (proj1 (proj2 (@handleUpdateSpace_target
                       Fixture.World Fixture.backend
                       (Cases.space_params None (Some "Ops"))
                       Cases.start_with_eng))
                    "Ops" (world Cases.start_with_eng)
                    eq_refl eq_refl eq_refl)).
  - refine (proj2 (proj2 (@handleUpdateSpace_target
                       Fixture.World Fixture.backend
                       (Cases.space_params None (Some "Eng"))
                       Cases.start_with_eng))
                  "Eng" Cases.eng (world Cases.start_with_eng)
                  eq_refl eq_refl eq_refl _).
    discriminate.
Defined.
